(** * micro-user-service: the in-memory user store and its HTTP handlers

    A shallow embedding of [main.go].  The store is a Go [map[string]User]
    guarded by one [sync.RWMutex]; every method takes the lock on entry and
    releases it on return, so each method is one atomic step on the map and is
    modelled as a function on the map.  Handlers mutate the response writer
    and the global [store]; both are threaded explicitly. *)

From stdpp Require Import base strings gmap list fin_maps.

Open Scope string_scope.

(** ** Data model *)

(** [type User struct { ID, Name, Email string }] *)
Record User := mkUser { ID : string; Name : string; Email : string }.

#[global] Instance User_eq_dec : EqDecision User.
Proof. solve_decision. Defined.

(** The zero value [User{}]: what [var user User] holds, and what a map
    lookup yields for an absent key. *)
Definition zeroUser : User := mkUser "" "" "".

(** [type UserStore struct { mu sync.RWMutex; users map[string]User }] *)
Record UserStore := mkStore { users : gmap string User }.

(** A Go slice value is either [nil] or a (possibly empty) sequence. *)
Inductive slice (A : Type) : Type :=
| SliceNil
| SliceOf (l : list A).
Arguments SliceNil {A}.
Arguments SliceOf {A} l.

Definition slice_elems {A} (x : slice A) : list A :=
  match x with SliceNil => [] | SliceOf l => l end.

(** [append(x, a)] *)
Definition append {A} (x : slice A) (a : A) : slice A :=
  SliceOf (slice_elems x ++ [a]).

(** ** The record store *)

Definition NewUserStore : UserStore := mkStore ∅.

(** [s.users[user.ID] = user] *)
Definition Create (user : User) (s : UserStore) : UserStore :=
  mkStore (<[ID user := user]> (users s)).

(** [user, exists := s.users[id]; return user, exists] *)
Definition Get (s : UserStore) (id : string) : User * bool :=
  match users s !! id with
  | Some user => (user, true)
  | None => (zeroUser, false)
  end.

(** The body of [GetAll] for one iteration order [entries] of the map:
    [users := make([]User, 0, len(s.users))] followed by one [append] per
    entry.  [make] with length 0 yields an empty slice that is not [nil]. *)
Definition GetAllIn (entries : list (string * User)) : slice User :=
  foldl (λ users kv, append users kv.2) (SliceOf []) entries.

(** Go leaves the order of [range] over a map unspecified.  [GetAll] runs the
    loop in the order [map_to_list] enumerates the entries; any other order
    is a permutation of it and is covered through [GetAllIn]. *)
Definition GetAll (s : UserStore) : slice User :=
  GetAllIn (map_to_list (users s)).

Definition Update (user : User) (s : UserStore) : UserStore * bool :=
  match users s !! ID user with
  | Some _ => (mkStore (<[ID user := user]> (users s)), true)
  | None => (s, false)
  end.

Definition Delete (id : string) (s : UserStore) : UserStore * bool :=
  match users s !! id with
  | Some _ => (mkStore (delete id (users s)), true)
  | None => (s, false)
  end.

(** Mutating operations, to speak about every run of the store. *)
Inductive Op : Type :=
| OpCreate (user : User)
| OpUpdate (user : User)
| OpDelete (id : string).

Definition apply_op (s : UserStore) (o : Op) : UserStore :=
  match o with
  | OpCreate user => Create user s
  | OpUpdate user => (Update user s).1
  | OpDelete id => (Delete id s).1
  end.

Definition run (ops : list Op) (s : UserStore) : UserStore :=
  foldl apply_op s ops.

(** The identifier an operation is keyed on. *)
Definition op_key (o : Op) : string :=
  match o with
  | OpCreate user => ID user
  | OpUpdate user => ID user
  | OpDelete id => id
  end.

(** [Create] called once per record of [us], first to last. *)
Definition create_all (us : list User) (s : UserStore) : UserStore :=
  foldl (λ s user, Create user s) s us.

(** The identifiers of the records held, as [GetAll] lists them. *)
Definition stored_ids (s : UserStore) : list string :=
  ID <$> slice_elems (GetAll s).

(** Every record sits under its own identifier. *)
Definition keyed_by_id (s : UserStore) : Prop :=
  ∀ k user, users s !! k = Some user → ID user = k.

(** ** HTTP: response writer, requests, JSON bodies *)

Definition StatusOK : nat := 200.
Definition StatusCreated : nat := 201.
Definition StatusNoContent : nat := 204.
Definition StatusMovedPermanently : nat := 301.
Definition StatusBadRequest : nat := 400.
Definition StatusNotFound : nat := 404.
Definition StatusMethodNotAllowed : nat := 405.

(** The values the handlers hand to [json.NewEncoder(w).Encode]. *)
Inductive JSONValue : Type :=
| JUser (user : User)
| JUsers (users : slice User)
| JStrMap (m : gmap string string).

(** One write to the response body: the text of [http.Error], or one encoded
    JSON value. *)
Inductive Payload : Type :=
| Text (s : string)
| Encoded (v : JSONValue).

(** [http.ResponseWriter]: the header map the handler edits, the status line
    and header snapshot once they are sent, and the body written so far. *)
Record ResponseWriter := mkW {
  header : gmap string string;
  committed : option (nat * gmap string string);
  body : list Payload
}.

Definition newResponseWriter : ResponseWriter := mkW ∅ None [].

(** [w.Header().Set(k, v)] *)
Definition Header_Set (k v : string) (w : ResponseWriter) : ResponseWriter :=
  mkW (<[k := v]> (header w)) (committed w) (body w).

(** [w.WriteHeader(code)]: sends the status line with the headers as they are
    now; a second call is ignored. *)
Definition WriteHeader (code : nat) (w : ResponseWriter) : ResponseWriter :=
  match committed w with
  | Some _ => w
  | None => mkW (header w) (Some (code, header w)) (body w)
  end.

(** [w.Write(...)]: an implicit [WriteHeader(200)] when nothing was sent. *)
Definition writeBody (p : Payload) (w : ResponseWriter) : ResponseWriter :=
  let w := WriteHeader StatusOK w in
  mkW (header w) (committed w) (body w ++ [p]).

(** [json.NewEncoder(w).Encode(v)] *)
Definition Encode (v : JSONValue) (w : ResponseWriter) : ResponseWriter :=
  writeBody (Encoded v) w.

(** The line feed [fmt.Fprintln] appends. *)
Definition newline : string := String (Ascii.ascii_of_nat 10) EmptyString.

(** [http.Error(w, msg, code)] *)
Definition http_Error (w : ResponseWriter) (msg : string) (code : nat)
    : ResponseWriter :=
  let w := Header_Set "Content-Type" "text/plain; charset=utf-8" w in
  let w := Header_Set "X-Content-Type-Options" "nosniff" w in
  let w := WriteHeader code w in
  writeBody (Text (msg ++ newline)) w.

(** What the server does when the handler returns without having sent
    anything: status 200. *)
Definition finishRequest (w : ResponseWriter) : ResponseWriter :=
  WriteHeader StatusOK w.

(** Status and headers of the response as sent. *)
Definition status (w : ResponseWriter) : option nat := fst <$> committed w.
Definition sent_header (w : ResponseWriter) (k : string) : option string :=
  committed w ≫= λ c, c.2 !! k.

(** A request body as [json.Decoder] sees it for a [User] target: either it
    fails with an error text, or it is an object in which each of the three
    tagged fields is present with a string value or absent. *)
Record UserObject := mkObj {
  json_id : option string;
  json_name : option string;
  json_email : option string
}.

Inductive ReqBody : Type :=
| BadJSON (err : string)
| Object (o : UserObject).

(** [json.NewDecoder(r.Body).Decode(&user)]: fields present in the body are
    stored into [user], the others keep what [user] held. *)
Definition Decode (b : ReqBody) (user : User) : string + User :=
  match b with
  | BadJSON err => inl err
  | Object o =>
      inr (mkUser (default (ID user) (json_id o))
                  (default (Name user) (json_name o))
                  (default (Email user) (json_email o)))
  end.

Record Request := mkReq {
  Method : string;
  Path : string;
  Vars : gmap string string;
  Body : ReqBody
}.

(** [mux.Vars(r)[k]]: the zero string for a variable the route did not set. *)
Definition mux_Vars (r : Request) (k : string) : string :=
  default "" (Vars r !! k).

(** A handler acts on the response writer and on the global [store]. *)
Definition Handler : Type :=
  ResponseWriter → Request → UserStore → ResponseWriter * UserStore.

(** ** Middleware and handlers *)

Definition corsHeaders : list (string * string) :=
  [ ("Access-Control-Allow-Origin", "*");
    ("Access-Control-Allow-Methods", "GET, POST, PUT, DELETE, OPTIONS");
    ("Access-Control-Allow-Headers", "Content-Type, Authorization") ].

Definition setCorsHeaders (w : ResponseWriter) : ResponseWriter :=
  let w := Header_Set "Access-Control-Allow-Origin" "*" w in
  let w := Header_Set "Access-Control-Allow-Methods"
                      "GET, POST, PUT, DELETE, OPTIONS" w in
  Header_Set "Access-Control-Allow-Headers" "Content-Type, Authorization" w.

Definition corsMiddleware (next : Handler) : Handler :=
  λ w r s,
    let w := setCorsHeaders w in
    if bool_decide (Method r = "OPTIONS") then (WriteHeader StatusOK w, s)
    else next w r s.

Definition healthCheckHandler : Handler :=
  λ w r s,
    let w := WriteHeader StatusOK w in
    (Encode (JStrMap {[ "status" := "healthy"; "service" := "user-service" ]}) w, s).

Definition createUserHandler : Handler :=
  λ w r s,
    match Decode (Body r) zeroUser with
    | inl err => (http_Error w err StatusBadRequest, s)
    | inr user =>
        if bool_decide (ID user = "") || bool_decide (Name user = "")
           || bool_decide (Email user = "")
        then (http_Error w "ID, Name, and Email are required" StatusBadRequest, s)
        else
          let s := Create user s in
          let w := WriteHeader StatusCreated w in
          (Encode (JUser user) w, s)
    end.

Definition getUserHandler : Handler :=
  λ w r s,
    let id := mux_Vars r "id" in
    let '(user, exists_) := Get s id in
    if negb exists_ then (http_Error w "User not found" StatusNotFound, s)
    else (Encode (JUser user) w, s).

Definition getAllUsersHandler : Handler :=
  λ w r s,
    let users := GetAll s in
    (Encode (JUsers users) w, s).

Definition updateUserHandler : Handler :=
  λ w r s,
    let id := mux_Vars r "id" in
    match Decode (Body r) zeroUser with
    | inl err => (http_Error w err StatusBadRequest, s)
    | inr user =>
        let user := mkUser id (Name user) (Email user) in
        let '(s, ok) := Update user s in
        if negb ok then (http_Error w "User not found" StatusNotFound, s)
        else (Encode (JUser user) w, s)
    end.

Definition deleteUserHandler : Handler :=
  λ w r s,
    let id := mux_Vars r "id" in
    let '(s, ok) := Delete id s in
    if negb ok then (http_Error w "User not found" StatusNotFound, s)
    else (WriteHeader StatusNoContent w, s).

(** ** Routing and the server *)

(** A route as [router.HandleFunc(path, h).Methods(m)] registers it: the path
    template (yielding the route variables when it matches), the method, the
    handler. *)
Record Route := mkRoute {
  route_path : string → option (gmap string string);
  route_method : string;
  route_handler : Handler
}.

Definition exact_path (template path : string) : option (gmap string string) :=
  if bool_decide (path = template) then Some ∅ else None.

(** The template [/users/{id}]: one non-empty segment without a slash. *)
Definition users_id_path (path : string) : option (gmap string string) :=
  if String.prefix "/users/" path then
    let id := String.substring 7 (String.length path - 7) path in
    if bool_decide (id = "") then None
    else match String.index 0 "/" id with
         | Some _ => None
         | None => Some {[ "id" := id ]}
         end
  else None.

(** The routes of [main], in registration order. *)
Definition routes : list Route :=
  [ mkRoute (exact_path "/health") "GET" healthCheckHandler;
    mkRoute (exact_path "/users") "POST" createUserHandler;
    mkRoute (exact_path "/users") "GET" getAllUsersHandler;
    mkRoute users_id_path "GET" getUserHandler;
    mkRoute users_id_path "PUT" updateUserHandler;
    mkRoute users_id_path "DELETE" deleteUserHandler ].

Inductive RouteMatch : Type :=
| Matched (h : Handler) (vars : gmap string string)
| MethodMismatch
| NoMatch.

(** The router's matching loop: the first route whose path and method both
    match wins; [mismatch] records that some path matched with another
    method. *)
Fixpoint mux_match (rs : list Route) (r : Request) (mismatch : bool)
    : RouteMatch :=
  match rs with
  | [] => if mismatch then MethodMismatch else NoMatch
  | rt :: rs =>
      match route_path rt (Path r) with
      | None => mux_match rs r mismatch
      | Some vars =>
          if bool_decide (Method r = route_method rt)
          then Matched (route_handler rt) vars
          else mux_match rs r true
      end
  end.

Section Server.
(** The router first normalises the path: for a request whose path is not
    in clean form it answers with a redirect to the cleaned location.
    [cleanRedirect r] is that location, [None] for a clean path. *)
Variable cleanRedirect : Request → option string.

Definition router : Handler :=
  λ w r s,
    match cleanRedirect r with
    | Some location =>
        let w := Header_Set "Location" location w in
        (WriteHeader StatusMovedPermanently w, s)
    | None =>
        match mux_match routes r false with
        | Matched h vars =>
            h w (mkReq (Method r) (Path r) vars (Body r)) s
        | MethodMismatch => (WriteHeader StatusMethodNotAllowed w, s)
        | NoMatch => (http_Error w "404 page not found" StatusNotFound, s)
        end
    end.

(** One request against the handler [main] passes to [ListenAndServe]. *)
Definition serve (r : Request) (s : UserStore) : ResponseWriter * UserStore :=
  let '(w, s) := corsMiddleware router newResponseWriter r s in
  (finishRequest w, s).
End Server.

(** The store as [main] seeds it. *)
Definition seeded : UserStore :=
  Create (mkUser "2" "Jane Smith" "jane@example.com")
    (Create (mkUser "1" "John Doe" "john@example.com") NewUserStore).

(** ** Predicates used in the statements *)

(** The response writer holds every cross-origin header, and what was sent,
    if anything was, holds them too. *)
Definition cors_ok (w : ResponseWriter) : Prop :=
  ∀ k v, (k, v) ∈ corsHeaders →
    header w !! k = Some v ∧
    match committed w with
    | None => True
    | Some c => c.2 !! k = Some v
    end.

Definition preserves_cors (h : Handler) : Prop :=
  ∀ w r s, cors_ok w → cors_ok (h w r s).1.

Definition client_error (code : nat) : Prop := 400 ≤ code < 500.

(** The presence check as the handler contract words it for every handler
    with a request body, read for the update handler: a decoded body whose
    name or email is empty is answered with a client error and the store is
    left as it was. *)
Definition update_validates_required_fields : Prop :=
  ∀ (w : ResponseWriter) (r : Request) (s : UserStore) (user : User),
    committed w = None →
    Decode (Body r) zeroUser = inr user →
    Name user = "" ∨ Email user = "" →
    ∃ w' code,
      updateUserHandler w r s = (w', s) ∧
      status w' = Some code ∧ client_error code.

(** ** Predicates for the server as a whole *)

(** The separator of path segments. *)
Definition slash : Ascii.ascii := Ascii.ascii_of_nat 47.

(** An identifier that fits in one path segment: not empty, no slash. *)
Definition segment (id : string) : Prop :=
  id ≠ "" ∧ slash ∉ String.list_ascii_of_string id.

(** What holds of the store between any two requests: every record sits
    under its own identifier, and none under the empty one. *)
Definition store_inv (s : UserStore) : Prop :=
  keyed_by_id s ∧ users s !! "" = None.

(** The requests routed to a handler that writes to the store. *)
Definition mutating (r : Request) : Prop :=
  (Method r = "POST" ∧ Path r = "/users") ∨
  (Method r = "PUT" ∧ is_Some (users_id_path (Path r))) ∨
  (Method r = "DELETE" ∧ is_Some (users_id_path (Path r))).

(** The status codes the program names. *)
Definition statuses : list nat :=
  [ StatusOK; StatusCreated; StatusNoContent; StatusMovedPermanently;
    StatusBadRequest; StatusNotFound; StatusMethodNotAllowed ].

Definition status_known (w : ResponseWriter) : Prop :=
  match status w with
  | None => True
  | Some code => code ∈ statuses
  end.

(** A handler that leaves an unsent response unsent or sends a known
    status, and leaves a sent one as it was sent. *)
Definition keeps_status_known (h : Handler) : Prop :=
  ∀ w r s, status_known w → status_known (h w r s).1.

(** A sequence of requests served one after the other, with the responses
    in order and the store at the end. *)
Fixpoint serve_all (cleanRedirect : Request → option string)
    (rs : list Request) (s : UserStore) : list ResponseWriter * UserStore :=
  match rs with
  | [] => ([], s)
  | r :: rs =>
      let '(w, s) := serve cleanRedirect r s in
      let '(ws, s) := serve_all cleanRedirect rs s in
      (w :: ws, s)
  end.

(** ** Sample data for the examples *)

Definition alice : User := mkUser "3" "Alice Johnson" "alice@example.com".
Definition john : User := mkUser "1" "John Doe" "john@example.com".
Definition jane : User := mkUser "2" "Jane Smith" "jane@example.com".

Definition req (method path : string) (b : ReqBody) : Request :=
  mkReq method path ∅ b.

Definition obj (id name email : option string) : ReqBody :=
  Object (mkObj id name email).

Definition put_id (id : string) (b : ReqBody) : Request :=
  mkReq "PUT" ("/users/" ++ id) {[ "id" := id ]} b.

Example seeded_get_1 : Get seeded "1" = (john, true).
Proof. vm_compute. reflexivity. Qed.

Example seeded_get_9 : Get seeded "9" = (zeroUser, false).
Proof. vm_compute. reflexivity. Qed.

Example users_id_path_1 : users_id_path "/users/42" = Some {[ "id" := "42" ]}.
Proof. vm_compute. reflexivity. Qed.

Example users_id_path_nested : users_id_path "/users/4/2" = None.
Proof. vm_compute. reflexivity. Qed.

Example users_id_path_empty : users_id_path "/users/" = None.
Proof. vm_compute. reflexivity. Qed.

Example serve_get_1 :
  let '(w, s) := serve (λ _, None) (req "GET" "/users/1" (BadJSON "EOF")) seeded in
  status w = Some 200 ∧ body w = [Encoded (JUser john)] ∧ s = seeded.
Proof. vm_compute. done. Qed.

Example serve_post_health :
  let '(w, s) := serve (λ _, None) (req "POST" "/health" (BadJSON "EOF")) seeded in
  status w = Some 405 ∧ body w = [] ∧ s = seeded.
Proof. vm_compute. done. Qed.

Example serve_unknown :
  let '(w, s) := serve (λ _, None) (req "GET" "/nothing" (BadJSON "EOF")) seeded in
  status w = Some 404 ∧ s = seeded.
Proof. vm_compute. done. Qed.

(** ** The store: basic facts *)

Lemma store_eq (s1 s2 : UserStore) : users s1 = users s2 → s1 = s2.
Proof. destruct s1, s2; simpl; congruence. Qed.

Lemma Get_Some (s : UserStore) (id : string) (user : User) :
  users s !! id = Some user → Get s id = (user, true).
Proof. unfold Get. by intros ->. Qed.

Lemma Get_None (s : UserStore) (id : string) :
  users s !! id = None → Get s id = (zeroUser, false).
Proof. unfold Get. by intros ->. Qed.

Lemma Get_found (s : UserStore) (id : string) :
  (Get s id).2 = true ↔ is_Some (users s !! id).
Proof.
  unfold Get. destruct (users s !! id) as [u|]; simpl.
  - split; eauto.
  - split; [done | by intros [? ?]].
Qed.

Lemma Get_Create (user : User) (s : UserStore) :
  Get (Create user s) (ID user) = (user, true).
Proof. apply Get_Some. simpl. apply lookup_insert_eq. Qed.

Lemma Get_ext (s1 s2 : UserStore) (id : string) :
  users s1 !! id = users s2 !! id → Get s1 id = Get s2 id.
Proof. unfold Get. by intros ->. Qed.

(** The loop of [GetAll] collects the values in iteration order. *)
Lemma GetAllIn_acc (entries : list (string * User)) (acc : slice User) :
  foldl (λ users kv, append users kv.2) acc entries
  = match entries with
    | [] => acc
    | _ => SliceOf (slice_elems acc ++ entries.*2)
    end.
Proof.
  revert acc. induction entries as [|kv entries IH]; intros acc; [done|].
  simpl. rewrite IH. destruct entries as [|kv' entries]; simpl.
  - done.
  - by rewrite <-app_assoc.
Qed.

Lemma GetAllIn_values (entries : list (string * User)) :
  GetAllIn entries = SliceOf (entries.*2).
Proof.
  unfold GetAllIn. rewrite GetAllIn_acc. by destruct entries.
Qed.

Lemma GetAll_values (s : UserStore) :
  slice_elems (GetAll s) = (map_to_list (users s)).*2.
Proof. unfold GetAll. by rewrite GetAllIn_values. Qed.

Lemma GetAll_insert_fresh (user : User) (m : gmap string User) (k : string) :
  m !! k = None →
  slice_elems (GetAll (mkStore (<[k := user]> m)))
  ≡ₚ user :: slice_elems (GetAll (mkStore m)).
Proof.
  intros Hk. rewrite !GetAll_values. simpl.
  by rewrite map_to_list_insert.
Qed.

Lemma GetAll_delete (old : User) (m : gmap string User) (k : string) :
  m !! k = Some old →
  slice_elems (GetAll (mkStore m))
  ≡ₚ old :: slice_elems (GetAll (mkStore (delete k m))).
Proof.
  intros Hk. rewrite !GetAll_values. simpl.
  by rewrite <-(map_to_list_delete m k old Hk).
Qed.

Lemma GetAll_insert_over (user old : User) (m : gmap string User) (k : string) :
  m !! k = Some old →
  old :: slice_elems (GetAll (mkStore (<[k := user]> m)))
  ≡ₚ user :: slice_elems (GetAll (mkStore m)).
Proof.
  intros Hk.
  rewrite (GetAll_delete old m k Hk).
  rewrite <-(insert_delete_eq m k user).
  rewrite (GetAll_insert_fresh user (delete k m) k) by apply lookup_delete_eq.
  apply Permutation_swap.
Qed.

(** ** Records sit under their own identifier *)

Lemma keyed_NewUserStore : keyed_by_id NewUserStore.
Proof. intros k user. simpl. by rewrite lookup_empty. Qed.

Lemma keyed_Create (user : User) (s : UserStore) :
  keyed_by_id s → keyed_by_id (Create user s).
Proof.
  intros Hs k u. simpl. rewrite lookup_insert.
  case_decide as Hk.
  - intros [= <-]. done.
  - apply Hs.
Qed.

Lemma keyed_Update (user : User) (s : UserStore) :
  keyed_by_id s → keyed_by_id (Update user s).1.
Proof.
  intros Hs. unfold Update.
  destruct (users s !! ID user) as [old|]; simpl; [|done].
  apply (keyed_Create user s Hs).
Qed.

Lemma keyed_Delete (id : string) (s : UserStore) :
  keyed_by_id s → keyed_by_id (Delete id s).1.
Proof.
  intros Hs. unfold Delete.
  destruct (users s !! id) as [old|]; simpl; [|done].
  intros k u. simpl. rewrite lookup_delete_Some. intros [_ Hk]. by apply Hs.
Qed.

Lemma keyed_apply_op (s : UserStore) (o : Op) :
  keyed_by_id s → keyed_by_id (apply_op s o).
Proof.
  destruct o; simpl; auto using keyed_Create, keyed_Update, keyed_Delete.
Qed.

Lemma keyed_run (ops : list Op) (s : UserStore) :
  keyed_by_id s → keyed_by_id (run ops s).
Proof.
  revert s. induction ops as [|o ops IH]; intros s Hs; [done|].
  simpl. apply IH. by apply keyed_apply_op.
Qed.

Lemma stored_ids_keys (s : UserStore) :
  keyed_by_id s → stored_ids s = (map_to_list (users s)).*1.
Proof.
  intros Hs. unfold stored_ids. rewrite GetAll_values.
  rewrite <-list_fmap_compose.
  apply Forall_fmap_ext_1, Forall_forall. intros [k u] Hin. simpl.
  apply elem_of_map_to_list in Hin. by apply Hs.
Qed.

Lemma stored_ids_NoDup (s : UserStore) :
  keyed_by_id s → NoDup (stored_ids s).
Proof.
  intros Hs. rewrite stored_ids_keys by done. apply NoDup_fst_map_to_list.
Qed.

(** ** Repeated creation *)

Lemma create_all_snoc (us : list User) (user : User) (s : UserStore) :
  create_all (us ++ [user]) s = Create user (create_all us s).
Proof. unfold create_all. by rewrite foldl_app. Qed.

Lemma create_all_absent (us : list User) (s : UserStore) (id : string) :
  users s !! id = None → id ∉ ID <$> us →
  users (create_all us s) !! id = None.
Proof.
  induction us as [|user us IH] using rev_ind; intros Hs Hid; [done|].
  rewrite create_all_snoc. simpl.
  rewrite fmap_app in Hid. apply not_elem_of_app in Hid as [Hus Hu].
  rewrite lookup_insert_ne.
  - by apply IH.
  - intros Heq. apply Hu. simpl. rewrite Heq. apply list_elem_of_here.
Qed.

Lemma create_all_GetAll (us : list User) :
  NoDup (ID <$> us) →
  slice_elems (GetAll (create_all us NewUserStore)) ≡ₚ us.
Proof.
  induction us as [|user us IH] using rev_ind; intros Hnd.
  - rewrite GetAll_values. simpl. by rewrite map_to_list_empty.
  - rewrite fmap_app in Hnd. apply NoDup_app in Hnd as (Hus & Hfresh & _).
    rewrite create_all_snoc, GetAll_values. simpl.
    rewrite map_to_list_insert.
    + rewrite fmap_cons, <-GetAll_values, (IH Hus). simpl.
      apply Permutation_cons_append.
    + apply create_all_absent; [apply lookup_empty|].
      intros Hin. apply (Hfresh _ Hin). simpl. apply list_elem_of_here.
Qed.

(** ** The store operations *)

(** C1.  For every user record with a non-empty identifier, [Create] with
    that record followed by [Get] with the same identifier returns exactly
    that record with found = true, whatever the store held before.  (The
    store itself does not look at the identifier: [Get_Create] holds for the
    empty identifier as well.) *)
Theorem Create_then_Get (user : User) (s : UserStore) :
  ID user ≠ "" →
  Get (Create user s) (ID user) = (user, true).
Proof. intros _. apply Get_Create. Qed.

Lemma Create_then_Get_witness :
  ID alice ≠ "" ∧ Get (Create alice seeded) (ID alice) = (alice, true).
Proof.
  assert (H : ID alice ≠ "") by (simpl; discriminate).
  split; [exact H | exact (Create_then_Get alice seeded H)].
Defined.

(** C2.  [Create] is a total function on stores (it has no error result).
    After it, the record is the one found under its identifier.  If the
    identifier was absent the records held are the old ones plus the new one;
    if it was present with record [old], the new record takes the place of
    [old] and nothing else changes.  In every store reached from the empty
    one by any sequence of Create, Update and Delete calls, and in every
    store reached by such calls after a [Create] on a store whose records sit
    under their own identifiers, no two records held share an identifier. *)
Theorem Create_upserts_ids_unique (user : User) (s : UserStore) (ops : list Op) :
  Get (Create user s) (ID user) = (user, true) ∧
  match users s !! ID user with
  | None =>
      slice_elems (GetAll (Create user s)) ≡ₚ user :: slice_elems (GetAll s)
  | Some old =>
      old :: slice_elems (GetAll (Create user s))
      ≡ₚ user :: slice_elems (GetAll s)
  end ∧
  NoDup (stored_ids (run ops NewUserStore)) ∧
  (keyed_by_id s → NoDup (stored_ids (run ops (Create user s)))).
Proof.
  split; [apply Get_Create|]. split; [|split].
  - destruct s as [m]. unfold Create. simpl.
    destruct (m !! ID user) as [old|] eqn:Hold.
    + by apply GetAll_insert_over.
    + by apply GetAll_insert_fresh.
  - apply stored_ids_NoDup, keyed_run, keyed_NewUserStore.
  - intros Hs. by apply stored_ids_NoDup, keyed_run, keyed_Create.
Qed.

Lemma Create_upserts_ids_unique_witness :
  keyed_by_id seeded ∧
  NoDup (stored_ids (run [OpDelete "2"; OpUpdate john]
                         (Create (mkUser "1" "J. Doe" "jd@example.com") seeded))).
Proof.
  assert (H : keyed_by_id seeded).
  { apply keyed_Create, keyed_Create, keyed_NewUserStore. }
  split; [exact H|].
  exact (proj2 (proj2 (proj2
    (Create_upserts_ids_unique (mkUser "1" "J. Doe" "jd@example.com") seeded
       [OpDelete "2"; OpUpdate john]))) H).
Defined.

(** C3.  [Update] returns true exactly when a record with the identifier is
    held.  In that case the record found afterwards is the argument as a
    whole (no field of the old record survives) and it takes the place of
    the old record among the records held.  Otherwise [Update] returns false
    and the store is the one it was given: nothing is inserted. *)
Theorem Update_replaces_iff_exists (user : User) (s : UserStore) :
  (Update user s).2 = (Get s (ID user)).2 ∧
  match users s !! ID user with
  | Some old =>
      (Update user s).2 = true ∧
      Get (Update user s).1 (ID user) = (user, true) ∧
      old :: slice_elems (GetAll (Update user s).1)
      ≡ₚ user :: slice_elems (GetAll s)
  | None =>
      Update user s = (s, false) ∧
      Get (Update user s).1 (ID user) = (zeroUser, false)
  end.
Proof.
  unfold Update, Get. destruct s as [m]. simpl.
  destruct (m !! ID user) as [old|] eqn:Hold; simpl.
  - split; [done|]. split; [done|]. split.
    + by rewrite lookup_insert_eq.
    + by apply GetAll_insert_over.
  - by rewrite Hold.
Qed.

(** C4.  [Delete] returns true exactly when the identifier is present, and
    then removes that one record; afterwards the identifier is absent.  A
    second [Delete] of the same identifier returns false and leaves the store
    as the first [Delete] left it. *)
Theorem Delete_removes_iff_present (id : string) (s : UserStore) :
  (Delete id s).2 = (Get s id).2 ∧
  Get (Delete id s).1 id = (zeroUser, false) ∧
  match users s !! id with
  | Some old =>
      slice_elems (GetAll s) ≡ₚ old :: slice_elems (GetAll (Delete id s).1)
  | None => (Delete id s).1 = s
  end ∧
  Delete id (Delete id s).1 = ((Delete id s).1, false).
Proof.
  unfold Delete, Get. destruct s as [m]. simpl.
  destruct (m !! id) as [old|] eqn:Hold; simpl.
  - rewrite lookup_delete_eq. repeat split; try done.
    by apply GetAll_delete.
  - by rewrite Hold.
Qed.

(** C10.  A [Create], [Update] or [Delete] keyed on one identifier leaves
    what is held under every other identifier as it was: the same record, or
    the same absence. *)
Theorem other_ids_untouched (o : Op) (s : UserStore) (y : string) :
  op_key o ≠ y →
  users (apply_op s o) !! y = users s !! y ∧
  Get (apply_op s o) y = Get s y.
Proof.
  intros Hy.
  assert (users (apply_op s o) !! y = users s !! y) as Hlook.
  { destruct o as [user|user|id]; simpl in *.
    - by apply lookup_insert_ne.
    - unfold Update. destruct (users s !! ID user); simpl; [|done].
      by apply lookup_insert_ne.
    - unfold Delete. destruct (users s !! id); simpl; [|done].
      by apply lookup_delete_ne. }
  split; [done | by apply Get_ext].
Qed.

Lemma other_ids_untouched_witness :
  op_key (OpDelete "1") ≠ "2" ∧
  users (apply_op seeded (OpDelete "1")) !! "2" = users seeded !! "2" ∧
  Get (apply_op seeded (OpDelete "1")) "2" = Get seeded "2".
Proof.
  assert (H : op_key (OpDelete "1") ≠ "2") by (simpl; discriminate).
  split; [exact H | exact (other_ids_untouched (OpDelete "1") seeded "2" H)].
Defined.

(** C5.  Starting from the empty store, after one [Create] per record of a
    list with pairwise distinct identifiers, [GetAll] returns exactly those
    records: its result is a slice whose records are a permutation of the
    list, so it has as many records.  The same holds in whatever order the
    map is iterated, and the handler answers 200 with that sequence as its
    body.  On the empty store [GetAll] returns the empty slice, not [nil],
    and the handler answers 200 with that empty sequence as its body and
    leaves the store empty. *)
Theorem GetAll_after_distinct_creates
    (us : list User) (entries : list (string * User))
    (w : ResponseWriter) (r : Request) :
  (NoDup (ID <$> us) →
   ∃ l, GetAll (create_all us NewUserStore) = SliceOf l ∧
        l ≡ₚ us ∧ length l = length us) ∧
  (NoDup (ID <$> us) →
   entries ≡ₚ map_to_list (users (create_all us NewUserStore)) →
   ∃ l, GetAllIn entries = SliceOf l ∧ l ≡ₚ us ∧ length l = length us) ∧
  (NoDup (ID <$> us) → committed w = None →
   ∃ w' l, getAllUsersHandler w r (create_all us NewUserStore)
           = (w', create_all us NewUserStore) ∧
           status w' = Some StatusOK ∧
           body w' = (body w ++ [Encoded (JUsers (SliceOf l))])%list ∧
           l ≡ₚ us ∧ length l = length us) ∧
  GetAll NewUserStore = SliceOf [] ∧
  (committed w = None →
   ∃ w', getAllUsersHandler w r NewUserStore = (w', NewUserStore) ∧
         status w' = Some StatusOK ∧
         body w' = (body w ++ [Encoded (JUsers (SliceOf []))])%list).
Proof.
  assert (∀ es : list (string * User),
            NoDup (ID <$> us) →
            es ≡ₚ map_to_list (users (create_all us NewUserStore)) →
            GetAllIn es = SliceOf (es.*2) ∧
            es.*2 ≡ₚ us ∧ length (es.*2) = length us) as Hany.
  { intros es Hnd Hes.
    assert (es.*2 ≡ₚ us) as Hperm.
    { rewrite Hes, <-GetAll_values. by apply create_all_GetAll. }
    split; [apply GetAllIn_values|]. split; [done | by rewrite Hperm]. }
  assert (∀ v, committed w = None →
            status (Encode v w) = Some StatusOK ∧
            body (Encode v w) = (body w ++ [Encoded v])%list) as Henc.
  { intros v Hw.
    unfold Encode, writeBody, WriteHeader, status. by rewrite Hw. }
  split; [|split; [|split; [|split]]].
  - intros Hnd. eexists. unfold GetAll. by apply Hany.
  - intros Hnd Hentries. eexists. by apply Hany.
  - intros Hnd Hw.
    destruct (Hany (map_to_list (users (create_all us NewUserStore))) Hnd
                (reflexivity _)) as (Hall & Hperm & Hlen).
    eexists _, _. split; [reflexivity|].
    fold (GetAll (create_all us NewUserStore)) in Hall. rewrite Hall.
    destruct (Henc (JUsers (SliceOf (map_to_list
                (users (create_all us NewUserStore))).*2)) Hw) as [Hst Hb].
    done.
  - unfold GetAll. simpl. by rewrite map_to_list_empty.
  - intros Hw. eexists. split; [reflexivity|].
    unfold GetAll. simpl. rewrite map_to_list_empty. simpl.
    by apply Henc.
Qed.

Lemma GetAll_after_distinct_creates_witness :
  NoDup (ID <$> [alice; john; jane]) ∧
  (∃ l, GetAll (create_all [alice; john; jane] NewUserStore) = SliceOf l ∧
        l ≡ₚ [alice; john; jane] ∧ length l = 3) ∧
  (∃ l, GetAllIn (map_to_list (users (create_all [alice; john; jane] NewUserStore)))
        = SliceOf l ∧
        l ≡ₚ [alice; john; jane] ∧ length l = 3) ∧
  committed newResponseWriter = None ∧
  (∃ w' l, getAllUsersHandler newResponseWriter
             (req "GET" "/users" (BadJSON "EOF"))
             (create_all [alice; john; jane] NewUserStore)
           = (w', create_all [alice; john; jane] NewUserStore) ∧
           status w' = Some StatusOK ∧
           body w' = [Encoded (JUsers (SliceOf l))] ∧
           l ≡ₚ [alice; john; jane] ∧ length l = 3) ∧
  (∃ w', getAllUsersHandler newResponseWriter (req "GET" "/users" (BadJSON "EOF"))
           NewUserStore = (w', NewUserStore) ∧
         status w' = Some StatusOK ∧
         body w' = [Encoded (JUsers (SliceOf []))]).
Proof.
  assert (Hnd : NoDup (ID <$> [alice; john; jane])).
  { apply (bool_decide_unpack _). vm_compute. exact I. }
  pose proof (GetAll_after_distinct_creates [alice; john; jane]
    (map_to_list (users (create_all [alice; john; jane] NewUserStore)))
    newResponseWriter (req "GET" "/users" (BadJSON "EOF")))
    as (H1 & H2 & H3 & _ & H5).
  split; [exact Hnd|].
  split; [exact (H1 Hnd)|].
  split; [exact (H2 Hnd (reflexivity _))|].
  split; [reflexivity|].
  split; [exact (H3 Hnd eq_refl)|].
  exact (H5 eq_refl).
Defined.

(** ** The response writer *)

Lemma status_WriteHeader (code : nat) (w : ResponseWriter) :
  committed w = None → status (WriteHeader code w) = Some code.
Proof. unfold status, WriteHeader. by intros ->. Qed.

Lemma status_writeBody (p : Payload) (w : ResponseWriter) :
  status (writeBody p w) = status (WriteHeader StatusOK w).
Proof. done. Qed.

Lemma WriteHeader_again (c1 c2 : nat) (w : ResponseWriter) :
  committed w = None → WriteHeader c2 (WriteHeader c1 w) = WriteHeader c1 w.
Proof. unfold WriteHeader. by intros ->. Qed.

Lemma body_WriteHeader (code : nat) (w : ResponseWriter) :
  body (WriteHeader code w) = body w.
Proof. unfold WriteHeader. by destruct (committed w). Qed.

Lemma body_writeBody (p : Payload) (w : ResponseWriter) :
  body (writeBody p w) = (body w ++ [p])%list.
Proof. unfold writeBody. simpl. by rewrite body_WriteHeader. Qed.

Lemma Encode_fresh (v : JSONValue) (w : ResponseWriter) :
  committed w = None →
  status (Encode v w) = Some StatusOK ∧
  body (Encode v w) = (body w ++ [Encoded v])%list.
Proof.
  intros Hw. unfold Encode. rewrite status_writeBody, body_writeBody.
  by rewrite status_WriteHeader.
Qed.

Lemma Encode_after_WriteHeader (v : JSONValue) (code : nat) (w : ResponseWriter) :
  committed w = None →
  status (Encode v (WriteHeader code w)) = Some code ∧
  body (Encode v (WriteHeader code w)) = (body w ++ [Encoded v])%list.
Proof.
  intros Hw. unfold Encode.
  rewrite status_writeBody, body_writeBody, body_WriteHeader.
  by rewrite WriteHeader_again, status_WriteHeader.
Qed.

Lemma http_Error_fresh (w : ResponseWriter) (msg : string) (code : nat) :
  committed w = None →
  status (http_Error w msg code) = Some code ∧
  body (http_Error w msg code) = (body w ++ [Text (msg ++ newline)])%list.
Proof.
  intros Hw. unfold http_Error.
  rewrite status_writeBody, body_writeBody, body_WriteHeader.
  by rewrite WriteHeader_again, status_WriteHeader.
Qed.

(** ** The handlers, case by case *)

Lemma createUserHandler_bad_json (w : ResponseWriter) (r : Request)
    (s : UserStore) (err : string) :
  Body r = BadJSON err →
  createUserHandler w r s = (http_Error w err StatusBadRequest, s).
Proof. unfold createUserHandler. by intros ->. Qed.

Lemma createUserHandler_invalid (w : ResponseWriter) (r : Request)
    (s : UserStore) (user : User) :
  Decode (Body r) zeroUser = inr user →
  ID user = "" ∨ Name user = "" ∨ Email user = "" →
  createUserHandler w r s
  = (http_Error w "ID, Name, and Email are required" StatusBadRequest, s).
Proof.
  intros Hdec Hempty. unfold createUserHandler. rewrite Hdec.
  destruct Hempty as [ -> | [ -> | -> ] ]; simpl;
    by rewrite ?orb_true_r.
Qed.

Lemma createUserHandler_valid (w : ResponseWriter) (r : Request)
    (s : UserStore) (user : User) :
  Decode (Body r) zeroUser = inr user →
  ID user ≠ "" → Name user ≠ "" → Email user ≠ "" →
  createUserHandler w r s
  = (Encode (JUser user) (WriteHeader StatusCreated w), Create user s).
Proof.
  intros Hdec Hid Hname Hemail. unfold createUserHandler. rewrite Hdec.
  by rewrite !bool_decide_eq_false_2.
Qed.

Lemma updateUserHandler_bad_json (w : ResponseWriter) (r : Request)
    (s : UserStore) (err : string) :
  Body r = BadJSON err →
  updateUserHandler w r s = (http_Error w err StatusBadRequest, s).
Proof. unfold updateUserHandler. by intros ->. Qed.

Lemma updateUserHandler_decoded (w : ResponseWriter) (r : Request)
    (s : UserStore) (user : User) :
  Decode (Body r) zeroUser = inr user →
  let user' := mkUser (mux_Vars r "id") (Name user) (Email user) in
  updateUserHandler w r s
  = match users s !! mux_Vars r "id" with
    | Some _ => (Encode (JUser user') w, Create user' s)
    | None => (http_Error w "User not found" StatusNotFound, s)
    end.
Proof.
  intros Hdec. unfold updateUserHandler. rewrite Hdec. simpl.
  unfold Update. simpl. by destruct (users s !! mux_Vars r "id").
Qed.

Lemma Decode_Object (o : UserObject) :
  Decode (Object o) zeroUser
  = inr (mkUser (default "" (json_id o)) (default "" (json_name o))
                (default "" (json_email o))).
Proof. done. Qed.

(** ** The create and update handlers *)

(** C6.  For a POST /users request whose body decodes to a record: if the
    identifier, the name or the email is the empty string, the create handler
    answers 400 with its fixed message, whatever the store holds, and the
    store is left as it was; if all three are non-empty,
    the record is inserted into the store, the answer is 201 and its body is
    the stored record. *)
Theorem createUserHandler_requires_fields
    (w : ResponseWriter) (r : Request) (s : UserStore) (user : User) :
  committed w = None →
  Decode (Body r) zeroUser = inr user →
  (ID user = "" ∨ Name user = "" ∨ Email user = "" →
   ∃ w', createUserHandler w r s = (w', s) ∧
         status w' = Some StatusBadRequest ∧
         body w' = (body w ++ [Text ("ID, Name, and Email are required"
                                     ++ newline)%string])%list) ∧
  (ID user ≠ "" ∧ Name user ≠ "" ∧ Email user ≠ "" →
   ∃ w', createUserHandler w r s = (w', Create user s) ∧
         status w' = Some StatusCreated ∧
         body w' = (body w ++ [Encoded (JUser user)])%list ∧
         Get (Create user s) (ID user) = (user, true)).
Proof.
  intros Hw Hdec. split.
  - intros Hempty. eexists. split.
    + by apply (createUserHandler_invalid w r s user).
    + by apply http_Error_fresh.
  - intros (Hid & Hname & Hemail). eexists. split.
    + by apply (createUserHandler_valid w r s user).
    + destruct (Encode_after_WriteHeader (JUser user) StatusCreated w Hw)
        as [Hst Hbody].
      split; [done|]. split; [done|]. apply Get_Create.
Qed.

Lemma createUserHandler_requires_fields_witness :
  (committed newResponseWriter = None ∧
   Decode (obj (Some "3") None (Some "alice@example.com")) zeroUser
   = inr (mkUser "3" "" "alice@example.com") ∧
   (ID (mkUser "3" "" "alice@example.com") = "" ∨
    Name (mkUser "3" "" "alice@example.com") = "" ∨
    Email (mkUser "3" "" "alice@example.com") = "") ∧
   ∃ w', createUserHandler newResponseWriter
           (req "POST" "/users" (obj (Some "3") None (Some "alice@example.com")))
           seeded = (w', seeded) ∧
         status w' = Some StatusBadRequest ∧
         body w' = [Text ("ID, Name, and Email are required" ++ newline)]) ∧
  (Decode (obj (Some "3") (Some "Alice Johnson") (Some "alice@example.com"))
          zeroUser = inr alice ∧
   (ID alice ≠ "" ∧ Name alice ≠ "" ∧ Email alice ≠ "") ∧
   ∃ w', createUserHandler newResponseWriter
           (req "POST" "/users"
                (obj (Some "3") (Some "Alice Johnson") (Some "alice@example.com")))
           seeded = (w', Create alice seeded) ∧
         status w' = Some StatusCreated ∧
         body w' = [Encoded (JUser alice)] ∧
         Get (Create alice seeded) (ID alice) = (alice, true)).
Proof.
  assert (Hne : ID alice ≠ "" ∧ Name alice ≠ "" ∧ Email alice ≠ "").
  { repeat split; simpl; discriminate. }
  split.
  - split; [reflexivity|]. split; [reflexivity|].
    split; [right; left; reflexivity|].
    exact (proj1 (createUserHandler_requires_fields newResponseWriter
      (req "POST" "/users" (obj (Some "3") None (Some "alice@example.com")))
      seeded (mkUser "3" "" "alice@example.com") eq_refl eq_refl)
      (or_intror (or_introl eq_refl))).
  - split; [reflexivity|]. split; [exact Hne|].
    exact (proj2 (createUserHandler_requires_fields newResponseWriter
      (req "POST" "/users"
           (obj (Some "3") (Some "Alice Johnson") (Some "alice@example.com")))
      seeded alice eq_refl eq_refl) Hne).
Defined.

(** C7.  For a PUT /users/{id} request with a decodable body the update
    handler works on the record whose identifier is the path parameter and
    whose name and email are those of the body, empty where the body omits
    them; an identifier in the body plays no part.  If no record is held
    under the path identifier the answer is 404 and the store is left as it
    was.  Otherwise the answer is 200, that record takes the place of the
    stored one, and it is the body of the answer. *)
Theorem updateUserHandler_full_replace
    (w : ResponseWriter) (r : Request) (s : UserStore) (o : UserObject) :
  committed w = None →
  Body r = Object o →
  let id := mux_Vars r "id" in
  let user := mkUser id (default "" (json_name o)) (default "" (json_email o)) in
  match users s !! id with
  | None =>
      ∃ w', updateUserHandler w r s = (w', s) ∧
            status w' = Some StatusNotFound
  | Some old =>
      ∃ w' s', updateUserHandler w r s = (w', s') ∧
               status w' = Some StatusOK ∧
               body w' = (body w ++ [Encoded (JUser user)])%list ∧
               Get s' id = (user, true) ∧
               old :: slice_elems (GetAll s') ≡ₚ user :: slice_elems (GetAll s)
  end.
Proof.
  intros Hw Hbody id user.
  pose proof (updateUserHandler_decoded w r s
    (mkUser (default "" (json_id o)) (default "" (json_name o))
            (default "" (json_email o)))) as Hupd.
  rewrite Hbody in Hupd. specialize (Hupd (Decode_Object o)). simpl in Hupd.
  fold id in Hupd. fold user in Hupd.
  destruct (users s !! id) as [old|] eqn:Hold.
  - eexists _, _. split; [exact Hupd|].
    destruct (Encode_fresh (JUser user) w Hw) as [Hst Hb].
    split; [done|]. split; [done|]. split.
    + apply (Get_Create user s).
    + destruct s as [m]. by apply GetAll_insert_over.
  - eexists. split; [exact Hupd|]. by apply http_Error_fresh.
Qed.

Lemma updateUserHandler_full_replace_witness :
  committed newResponseWriter = None ∧
  Body (put_id "1" (obj (Some "77") (Some "Johnny") None))
  = Object (mkObj (Some "77") (Some "Johnny") None) ∧
  ∃ w' s', updateUserHandler newResponseWriter
             (put_id "1" (obj (Some "77") (Some "Johnny") None)) seeded
           = (w', s') ∧
           status w' = Some StatusOK ∧
           body w' = [Encoded (JUser (mkUser "1" "Johnny" ""))] ∧
           Get s' "1" = (mkUser "1" "Johnny" "", true) ∧
           john :: slice_elems (GetAll s')
           ≡ₚ mkUser "1" "Johnny" "" :: slice_elems (GetAll seeded).
Proof.
  split; [reflexivity|]. split; [reflexivity|].
  exact (updateUserHandler_full_replace newResponseWriter
    (put_id "1" (obj (Some "77") (Some "Johnny") None)) seeded
    (mkObj (Some "77") (Some "Johnny") None) eq_refl eq_refl).
Defined.

(** ** Presence checks: create has one, update has none *)

(** C8, as stated, fails.  With record "1" held, a PUT /users/1 whose body
    is the empty object decodes to empty name and email, yet the update
    handler answers 200 and the stored record now has both fields empty. *)
Lemma update_accepts_omitted_fields :
  Decode (Body (put_id "1" (obj None None None))) zeroUser = inr zeroUser ∧
  status (updateUserHandler newResponseWriter
            (put_id "1" (obj None None None)) seeded).1 = Some StatusOK ∧
  Get (updateUserHandler newResponseWriter
         (put_id "1" (obj None None None)) seeded).2 "1"
  = (mkUser "1" "" "", true) ∧
  Get seeded "1" = (john, true) ∧
  ¬ update_validates_required_fields.
Proof.
  split; [reflexivity|]. split; [by vm_compute|].
  split; [by vm_compute|]. split; [by vm_compute|].
  intros Hclaim.
  destruct (Hclaim newResponseWriter (put_id "1" (obj None None None)) seeded
              zeroUser eq_refl eq_refl (or_introl eq_refl))
    as (w' & code & Hres & _ & _).
  apply (f_equal (λ p, Get p.2 "1")) in Hres.
  vm_compute in Hres. discriminate Hres.
Qed.

(** C8, amended.  The create handler checks the presence of identifier, name
    and email before it invokes the store: a decoded body with any of them
    empty is answered 400 and the store is left as it was.  The update
    handler has no presence check.  It rejects only a body that fails to
    decode (400, store as it was); for every decoded body, whatever its name
    and email, it invokes [Update] with the path identifier and answers by
    the outcome alone: 200 when a record is held under that identifier, 404
    otherwise. *)
Theorem presence_check_only_on_create
    (w : ResponseWriter) (r : Request) (s : UserStore) :
  committed w = None →
  (∀ user, Decode (Body r) zeroUser = inr user →
     ID user = "" ∨ Name user = "" ∨ Email user = "" →
     ∃ w', createUserHandler w r s = (w', s) ∧
           status w' = Some StatusBadRequest) ∧
  (∀ err, Body r = BadJSON err →
     ∃ w', updateUserHandler w r s = (w', s) ∧
           status w' = Some StatusBadRequest) ∧
  (∀ user, Decode (Body r) zeroUser = inr user →
     let user' := mkUser (mux_Vars r "id") (Name user) (Email user) in
     ∃ w', updateUserHandler w r s = (w', (Update user' s).1) ∧
           status w' = Some (if (Update user' s).2 then StatusOK
                             else StatusNotFound)).
Proof.
  intros Hw. split; [|split].
  - intros user Hdec Hempty. eexists. split.
    + by apply (createUserHandler_invalid w r s user).
    + by apply http_Error_fresh.
  - intros err Hbody. eexists. split.
    + by apply (updateUserHandler_bad_json w r s err).
    + by apply http_Error_fresh.
  - intros user Hdec user'.
    pose proof (updateUserHandler_decoded w r s user Hdec) as Hupd.
    simpl in Hupd. fold user' in Hupd.
    unfold Update. simpl.
    destruct (users s !! mux_Vars r "id") as [old|]; simpl;
      eexists; (split; [exact Hupd|]).
    + by apply Encode_fresh.
    + by apply http_Error_fresh.
Qed.

Lemma presence_check_only_on_create_witness :
  committed newResponseWriter = None ∧
  (∃ w', createUserHandler newResponseWriter
           (put_id "1" (obj (Some "1") (Some "") (Some "j@example.com"))) seeded
         = (w', seeded) ∧ status w' = Some StatusBadRequest) ∧
  (∃ w', updateUserHandler newResponseWriter (put_id "1" (BadJSON "EOF")) seeded
         = (w', seeded) ∧ status w' = Some StatusBadRequest) ∧
  (∃ w', updateUserHandler newResponseWriter
           (put_id "1" (obj (Some "1") (Some "") (Some "j@example.com"))) seeded
         = (w', (Update (mkUser "1" "" "j@example.com") seeded).1) ∧
         status w' = Some StatusOK).
Proof.
  split; [reflexivity|].
  split; [|split].
  - exact (proj1 (presence_check_only_on_create newResponseWriter
      (put_id "1" (obj (Some "1") (Some "") (Some "j@example.com"))) seeded
      eq_refl) (mkUser "1" "" "j@example.com") eq_refl
      (or_intror (or_introl eq_refl))).
  - exact (proj1 (proj2 (presence_check_only_on_create newResponseWriter
      (put_id "1" (BadJSON "EOF")) seeded eq_refl)) "EOF" eq_refl).
  - exact (proj2 (proj2 (presence_check_only_on_create newResponseWriter
      (put_id "1" (obj (Some "1") (Some "") (Some "j@example.com"))) seeded
      eq_refl)) (mkUser "1" "" "j@example.com") eq_refl).
Defined.

(** ** Cross-origin headers *)

Lemma corsHeaders_cases (k v : string) :
  (k, v) ∈ corsHeaders →
  (k = "Access-Control-Allow-Origin" ∧ v = "*") ∨
  (k = "Access-Control-Allow-Methods" ∧ v = "GET, POST, PUT, DELETE, OPTIONS") ∨
  (k = "Access-Control-Allow-Headers" ∧ v = "Content-Type, Authorization").
Proof.
  unfold corsHeaders. rewrite !elem_of_cons, elem_of_nil.
  intros [H|[H|[H|[]]]]; inversion H; auto.
Qed.

Ltac cors_cases H :=
  apply corsHeaders_cases in H;
  destruct H as [[-> ->]|[[-> ->]|[-> ->]]].

Lemma header_setCorsHeaders (w : ResponseWriter) (k v : string) :
  (k, v) ∈ corsHeaders → header (setCorsHeaders w) !! k = Some v.
Proof.
  intros H. unfold setCorsHeaders, Header_Set. simpl.
  cors_cases H; by simplify_map_eq.
Qed.

Lemma cors_ok_setCorsHeaders (w : ResponseWriter) :
  committed w = None → cors_ok (setCorsHeaders w).
Proof.
  intros Hw k v Hkv. split; [by apply header_setCorsHeaders|].
  simpl. by rewrite Hw.
Qed.

Lemma cors_ok_Header_Set (k' v' : string) (w : ResponseWriter) :
  k' ∉ corsHeaders.*1 → cors_ok w → cors_ok (Header_Set k' v' w).
Proof.
  intros Hk' Hw k v Hkv. destruct (Hw k v Hkv) as [Hh Hc].
  split; [|done]. simpl. rewrite lookup_insert_ne; [done|].
  intros ->. apply Hk'. apply list_elem_of_fmap. by exists (k, v).
Qed.

Lemma cors_ok_WriteHeader (code : nat) (w : ResponseWriter) :
  cors_ok w → cors_ok (WriteHeader code w).
Proof.
  intros Hw k v Hkv. destruct (Hw k v Hkv) as [Hh Hc].
  unfold WriteHeader. destruct (committed w) eqn:Hcw; simpl.
  - by rewrite Hcw.
  - done.
Qed.

Lemma cors_ok_writeBody (p : Payload) (w : ResponseWriter) :
  cors_ok w → cors_ok (writeBody p w).
Proof.
  intros Hw k v Hkv.
  destruct (cors_ok_WriteHeader StatusOK w Hw k v Hkv) as [Hh Hc].
  unfold writeBody. by simpl.
Qed.

Lemma cors_ok_Encode (v : JSONValue) (w : ResponseWriter) :
  cors_ok w → cors_ok (Encode v w).
Proof. apply cors_ok_writeBody. Qed.

Lemma cors_ok_http_Error (w : ResponseWriter) (msg : string) (code : nat) :
  cors_ok w → cors_ok (http_Error w msg code).
Proof.
  intros Hw. unfold http_Error.
  apply cors_ok_writeBody, cors_ok_WriteHeader.
  apply cors_ok_Header_Set; [by apply (bool_decide_unpack _)|].
  apply cors_ok_Header_Set; [by apply (bool_decide_unpack _)|].
  done.
Qed.

Lemma cors_ok_sent (w : ResponseWriter) (k v : string) :
  cors_ok w → (k, v) ∈ corsHeaders →
  sent_header (finishRequest w) k = Some v.
Proof.
  intros Hw Hkv.
  destruct (cors_ok_WriteHeader StatusOK w Hw k v Hkv) as [Hh Hc].
  unfold sent_header, finishRequest.
  unfold WriteHeader in *. destruct (committed w) as [c|] eqn:Hcw; simpl in *.
  - rewrite Hcw in *. done.
  - done.
Qed.

Create HintDb cors.
#[local] Hint Resolve cors_ok_Encode cors_ok_http_Error cors_ok_WriteHeader
  cors_ok_writeBody : cors.

Lemma preserves_healthCheckHandler : preserves_cors healthCheckHandler.
Proof. intros w r s Hw. unfold healthCheckHandler. simpl. auto with cors. Qed.

Lemma preserves_createUserHandler : preserves_cors createUserHandler.
Proof.
  intros w r s Hw. unfold createUserHandler.
  destruct (Decode (Body r) zeroUser) as [err|user]; simpl; [auto with cors|].
  destruct (_ || _); simpl; auto with cors.
Qed.

Lemma preserves_getUserHandler : preserves_cors getUserHandler.
Proof.
  intros w r s Hw. unfold getUserHandler.
  destruct (Get s (mux_Vars r "id")) as [user [|]]; simpl; auto with cors.
Qed.

Lemma preserves_getAllUsersHandler : preserves_cors getAllUsersHandler.
Proof. intros w r s Hw. unfold getAllUsersHandler. simpl. auto with cors. Qed.

Lemma preserves_updateUserHandler : preserves_cors updateUserHandler.
Proof.
  intros w r s Hw. unfold updateUserHandler.
  destruct (Decode (Body r) zeroUser) as [err|user]; simpl; [auto with cors|].
  destruct (Update _ s) as [s' [|]]; simpl; auto with cors.
Qed.

Lemma preserves_deleteUserHandler : preserves_cors deleteUserHandler.
Proof.
  intros w r s Hw. unfold deleteUserHandler.
  destruct (Delete _ s) as [s' [|]]; simpl; auto with cors.
Qed.

Lemma mux_match_preserves (rs : list Route) (r : Request) (mismatch : bool) :
  Forall (λ rt, preserves_cors (route_handler rt)) rs →
  match mux_match rs r mismatch with
  | Matched h _ => preserves_cors h
  | _ => True
  end.
Proof.
  intros Hrs. revert mismatch.
  induction Hrs as [|rt rs Hrt Hrs IH]; intros mismatch; simpl.
  - by destruct mismatch.
  - destruct (route_path rt (Path r)) as [vars|]; [|apply IH].
    case_bool_decide; [done | apply IH].
Qed.

Lemma routes_preserve : Forall (λ rt, preserves_cors (route_handler rt)) routes.
Proof.
  unfold routes. repeat apply Forall_cons_2; simpl.
  - exact preserves_healthCheckHandler.
  - exact preserves_createUserHandler.
  - exact preserves_getAllUsersHandler.
  - exact preserves_getUserHandler.
  - exact preserves_updateUserHandler.
  - exact preserves_deleteUserHandler.
  - apply Forall_nil_2.
Qed.

Lemma preserves_router (cleanRedirect : Request → option string) :
  preserves_cors (router cleanRedirect).
Proof.
  intros w r s Hw. unfold router.
  destruct (cleanRedirect r) as [location|].
  - apply cors_ok_WriteHeader, cors_ok_Header_Set; [|done].
    by apply (bool_decide_unpack _).
  - pose proof (mux_match_preserves routes r false routes_preserve) as Hm.
    destruct (mux_match routes r false) as [h vars| |].
    + by apply Hm.
    + by apply cors_ok_WriteHeader.
    + by apply cors_ok_http_Error.
Qed.

(** C9.  For every request the middleware sets the three permissive
    cross-origin headers on the response before anything else runs, hands
    any request other than OPTIONS to the wrapped handler with them in place,
    and every response of the server carries them.  For an OPTIONS request,
    whatever its path, the answer is a bare 200: nothing is written to the
    body, the wrapped handler (the router and every handler behind it) plays
    no part in the result, and the store is left as it was. *)
Theorem corsMiddleware_headers_and_preflight
    (cleanRedirect : Request → option string)
    (w : ResponseWriter) (r : Request) (s : UserStore) (k v : string) :
  (k, v) ∈ corsHeaders →
  header (setCorsHeaders w) !! k = Some v ∧
  (∀ next, Method r ≠ "OPTIONS" →
     corsMiddleware next w r s = next (setCorsHeaders w) r s) ∧
  sent_header (serve cleanRedirect r s).1 k = Some v ∧
  (Method r = "OPTIONS" →
   (committed w = None →
    ∃ w', (∀ next, corsMiddleware next w r s = (w', s)) ∧
          status w' = Some StatusOK ∧
          body w' = body w ∧
          sent_header w' k = Some v) ∧
   (∃ w', serve cleanRedirect r s = (w', s) ∧
          status w' = Some StatusOK ∧
          body w' = [])).
Proof.
  intros Hkv. split; [by apply header_setCorsHeaders|]. split; [|split].
  - intros next Hm. unfold corsMiddleware.
    by rewrite bool_decide_eq_false_2.
  - unfold serve, corsMiddleware.
    assert (cors_ok (setCorsHeaders newResponseWriter)) as Hok.
    { by apply cors_ok_setCorsHeaders. }
    case_bool_decide.
    + simpl. apply cors_ok_sent; [|done]. by apply cors_ok_WriteHeader.
    + pose proof (preserves_router cleanRedirect _ r s Hok) as Hr.
      destruct (router cleanRedirect _ r s) as [w' s']. simpl in *.
      by apply cors_ok_sent.
  - intros Hm. split.
    + intros Hw. exists (WriteHeader StatusOK (setCorsHeaders w)).
      split; [|split; [|split]].
      * intros next. unfold corsMiddleware. by rewrite bool_decide_eq_true_2.
      * by apply status_WriteHeader.
      * by rewrite body_WriteHeader.
      * unfold sent_header, WriteHeader. simpl. rewrite Hw. simpl.
        by apply (header_setCorsHeaders w).
    + unfold serve, corsMiddleware. rewrite bool_decide_eq_true_2 by done.
      eexists. split; [reflexivity|]. by vm_compute.
Qed.

Lemma corsMiddleware_headers_and_preflight_witness :
  ("Access-Control-Allow-Origin", "*") ∈ corsHeaders ∧
  Method (req "GET" "/users/1" (BadJSON "EOF")) ≠ "OPTIONS" ∧
  corsMiddleware getAllUsersHandler newResponseWriter
    (req "GET" "/users/1" (BadJSON "EOF")) seeded
  = getAllUsersHandler (setCorsHeaders newResponseWriter)
      (req "GET" "/users/1" (BadJSON "EOF")) seeded ∧
  Method (req "OPTIONS" "/users/1/anything" (obj (Some "9") None None))
  = "OPTIONS" ∧
  committed newResponseWriter = None ∧
  (∃ w', (∀ next, corsMiddleware next newResponseWriter
                    (req "OPTIONS" "/users/1/anything" (obj (Some "9") None None))
                    seeded = (w', seeded)) ∧
         status w' = Some StatusOK ∧
         body w' = [] ∧
         sent_header w' "Access-Control-Allow-Origin" = Some "*") ∧
  (∃ w', serve (λ _, None)
           (req "OPTIONS" "/users/1/anything" (obj (Some "9") None None)) seeded
         = (w', seeded) ∧
         status w' = Some StatusOK ∧ body w' = []).
Proof.
  assert (Hin : ("Access-Control-Allow-Origin", "*") ∈ corsHeaders).
  { apply list_elem_of_here. }
  assert (Hget : Method (req "GET" "/users/1" (BadJSON "EOF")) ≠ "OPTIONS").
  { simpl. discriminate. }
  split; [exact Hin|]. split; [exact Hget|].
  split.
  { exact (proj1 (proj2 (corsMiddleware_headers_and_preflight (λ _, None)
      newResponseWriter (req "GET" "/users/1" (BadJSON "EOF")) seeded
      "Access-Control-Allow-Origin" "*" Hin)) getAllUsersHandler Hget). }
  split; [reflexivity|]. split; [reflexivity|].
  pose proof (proj2 (proj2 (proj2 (corsMiddleware_headers_and_preflight
    (λ _, None) newResponseWriter
    (req "OPTIONS" "/users/1/anything" (obj (Some "9") None None)) seeded
    "Access-Control-Allow-Origin" "*" Hin))) eq_refl) as [H1 H2].
  split; [exact (H1 eq_refl) | exact H2].
Defined.

(** * Further properties of the store *)

Lemma Get_true_lookup (s : UserStore) (id : string) (user : User) :
  Get s id = (user, true) ↔ users s !! id = Some user.
Proof.
  unfold Get. destruct (users s !! id) as [u|]; split; intros H;
    try discriminate; by simplify_eq.
Qed.

(** X1.  [Create] and [Delete] undo each other.  Deleting the identifier of
    a record just created under a fresh identifier succeeds and gives back
    the store as it was; creating again the very record a [Delete] removed
    gives back the store as it was before the [Delete]. *)
Theorem Create_Delete_round_trip (user : User) (s : UserStore) :
  (users s !! ID user = None →
   Delete (ID user) (Create user s) = (s, true)) ∧
  (users s !! ID user = Some user →
   (Delete (ID user) s).2 = true ∧
   Create user (Delete (ID user) s).1 = s).
Proof.
  destruct s as [m]. unfold Delete, Create. simpl. split; intros Hm.
  - rewrite lookup_insert_eq. by rewrite delete_insert_id.
  - rewrite Hm. simpl. split; [done|]. by rewrite insert_delete_id.
Qed.

Lemma Create_Delete_round_trip_witness :
  users seeded !! ID alice = None ∧
  Delete (ID alice) (Create alice seeded) = (seeded, true) ∧
  users seeded !! ID john = Some john ∧
  (Delete (ID john) seeded).2 = true ∧
  Create john (Delete (ID john) seeded).1 = seeded.
Proof.
  assert (H1 : users seeded !! ID alice = None) by reflexivity.
  assert (H2 : users seeded !! ID john = Some john) by reflexivity.
  split; [exact H1|].
  split; [exact (proj1 (Create_Delete_round_trip alice seeded) H1)|].
  split; [exact H2|].
  exact (proj2 (Create_Delete_round_trip john seeded) H2).
Defined.

(** X2.  Two [Create] calls in a row: with the same identifier the second
    record alone remains, as if the first call had not been made; with
    different identifiers the order of the calls does not matter. *)
Theorem Create_twice (u1 u2 : User) (s : UserStore) :
  (ID u1 = ID u2 → Create u2 (Create u1 s) = Create u2 s) ∧
  (ID u1 ≠ ID u2 → Create u2 (Create u1 s) = Create u1 (Create u2 s)).
Proof.
  unfold Create. simpl. split; intros Hid; f_equal.
  - rewrite Hid. apply insert_insert_eq.
  - apply insert_insert_ne. congruence.
Qed.

Lemma Create_twice_witness :
  ID john = ID (mkUser "1" "J. Doe" "jd@example.com") ∧
  Create (mkUser "1" "J. Doe" "jd@example.com") (Create john NewUserStore)
  = Create (mkUser "1" "J. Doe" "jd@example.com") NewUserStore ∧
  ID john ≠ ID jane ∧
  Create jane (Create john NewUserStore) = Create john (Create jane NewUserStore).
Proof.
  assert (H1 : ID john = ID (mkUser "1" "J. Doe" "jd@example.com")) by reflexivity.
  assert (H2 : ID john ≠ ID jane) by (simpl; discriminate).
  split; [exact H1|].
  split; [exact (proj1 (Create_twice john (mkUser "1" "J. Doe" "jd@example.com")
                          NewUserStore) H1)|].
  split; [exact H2|].
  exact (proj2 (Create_twice john jane NewUserStore) H2).
Defined.

(** X3.  [GetAll] and [Get] agree.  In a store whose records sit under their
    own identifiers, a record is listed by [GetAll] exactly when [Get] with
    its identifier finds that very record. *)
Theorem GetAll_agrees_with_Get (s : UserStore) (user : User) :
  keyed_by_id s →
  user ∈ slice_elems (GetAll s) ↔ Get s (ID user) = (user, true).
Proof.
  intros Hs. rewrite GetAll_values, Get_true_lookup, list_elem_of_fmap. split.
  - intros ([k u] & -> & Hin). simpl.
    apply elem_of_map_to_list in Hin. by rewrite (Hs k u Hin).
  - intros Hm. exists (ID user, user). split; [done|].
    by apply elem_of_map_to_list.
Qed.

Lemma GetAll_agrees_with_Get_witness :
  keyed_by_id seeded ∧
  (jane ∈ slice_elems (GetAll seeded) ↔ Get seeded (ID jane) = (jane, true)).
Proof.
  assert (H : keyed_by_id seeded).
  { apply keyed_Create, keyed_Create, keyed_NewUserStore. }
  split; [exact H | exact (GetAll_agrees_with_Get seeded jane H)].
Defined.

(** X4.  [Update] never adds or removes an identifier: whether it succeeds or
    not, the identifiers held and the number of records listed by [GetAll]
    are those of the store it was given. *)
Theorem Update_keeps_identifiers (user : User) (s : UserStore) :
  dom (users (Update user s).1) = dom (users s) ∧
  length (slice_elems (GetAll (Update user s).1))
  = length (slice_elems (GetAll s)).
Proof.
  destruct s as [m]. unfold Update. simpl.
  destruct (m !! ID user) as [old|] eqn:Hold; simpl; [|done]. split.
  - apply dom_insert_lookup_L. by exists old.
  - pose proof (GetAll_insert_over user old m (ID user) Hold) as Hperm.
    apply Permutation_length in Hperm. simpl in Hperm. by injection Hperm.
Qed.

(** * The route template [/users/{id}] *)

Lemma prefix_append (s1 rest : string) : String.prefix s1 (s1 ++ rest) = true.
Proof.
  induction s1 as [|a s1 IH]; simpl.
  - by destruct rest.
  - by destruct (Ascii.ascii_dec a a).
Qed.

Lemma prefix_append_inv (s1 s2 : string) :
  String.prefix s1 s2 = true → ∃ rest, s2 = s1 ++ rest.
Proof.
  revert s2. induction s1 as [|a s1 IH]; intros s2 Hp.
  - by exists s2.
  - destruct s2 as [|b s2]; simpl in Hp; [discriminate|].
    destruct (Ascii.ascii_dec a b) as [->|]; [|discriminate].
    destruct (IH s2 Hp) as [rest ->]. by exists rest.
Qed.

Lemma substring_whole (s : string) :
  String.substring 0 (String.length s) s = s.
Proof. induction s as [|a s IH]; simpl; [done | by rewrite IH]. Qed.

Lemma substring_after (s1 s2 : string) :
  String.substring (String.length s1)
    (String.length (s1 ++ s2) - String.length s1) (s1 ++ s2) = s2.
Proof.
  induction s1 as [|a s1 IH]; simpl.
  - rewrite Nat.sub_0_r. apply substring_whole.
  - apply IH.
Qed.

Lemma prefix_slash (b : Ascii.ascii) (s : string) :
  String.prefix "/" (String b s) = bool_decide (slash = b).
Proof.
  change (String.prefix "/" (String b s))
    with (match Ascii.ascii_dec slash b with
          | left _ => String.prefix "" s
          | right _ => false
          end).
  destruct (Ascii.ascii_dec slash b) as [Hb|Hb].
  - rewrite bool_decide_eq_true_2 by done. by destruct s.
  - by rewrite bool_decide_eq_false_2.
Qed.

Lemma index_slash_cons (b : Ascii.ascii) (s : string) :
  String.index 0 "/" (String b s)
  = if bool_decide (slash = b) then Some 0
    else S <$> String.index 0 "/" s.
Proof.
  change (String.index 0 "/" (String b s))
    with (if String.prefix "/" (String b s) then Some 0
          else match String.index 0 "/" s with
               | Some n => Some (S n)
               | None => None
               end).
  rewrite prefix_slash. by destruct (String.index 0 "/" s).
Qed.

Lemma index_slash_None (s : string) :
  String.index 0 "/" s = None ↔ slash ∉ String.list_ascii_of_string s.
Proof.
  induction s as [|b s IH].
  - split; [intros _; apply not_elem_of_nil | done].
  - rewrite index_slash_cons. simpl. rewrite not_elem_of_cons.
    case_bool_decide as Hb.
    + split; [discriminate | by intros [? _]].
    + rewrite <-IH. destruct (String.index 0 "/" s); simpl.
      * split; [discriminate | by intros [_ ?]].
      * done.
Qed.

Lemma users_id_path_of_segment (id : string) :
  segment id → users_id_path ("/users/" ++ id) = Some {[ "id" := id ]}.
Proof.
  intros [Hid Hslash]. unfold users_id_path.
  rewrite prefix_append.
  change 7 with (String.length "/users/").
  rewrite substring_after.
  rewrite bool_decide_eq_false_2 by done.
  apply index_slash_None in Hslash. by rewrite Hslash.
Qed.

Lemma users_id_path_not_fixed (path : string) (vars : gmap string string) :
  users_id_path path = Some vars → path ≠ "/health" ∧ path ≠ "/users".
Proof.
  intros H. split; intros ->; vm_compute in H; discriminate H.
Qed.

(** * The remaining handlers *)

(** X6.  The get-by-id handler looks up the route variable [id].  If a
    record is held under it, the answer is 200 with that record as body; if
    not, the answer is 404 with the text "User not found".  Either way the
    store is left as it was. *)
Theorem getUserHandler_found_or_404
    (w : ResponseWriter) (r : Request) (s : UserStore) :
  committed w = None →
  ∃ w', getUserHandler w r s = (w', s) ∧
        match users s !! mux_Vars r "id" with
        | Some user =>
            status w' = Some StatusOK ∧
            body w' = (body w ++ [Encoded (JUser user)])%list
        | None =>
            status w' = Some StatusNotFound ∧
            body w' = (body w ++ [Text ("User not found" ++ newline)%string])%list
        end.
Proof.
  intros Hw. unfold getUserHandler, Get.
  destruct (users s !! mux_Vars r "id") as [user|]; simpl;
    eexists; (split; [reflexivity|]).
  - by apply Encode_fresh.
  - by apply http_Error_fresh.
Qed.

Lemma getUserHandler_found_or_404_witness :
  committed newResponseWriter = None ∧
  (∃ w', getUserHandler newResponseWriter
           (mkReq "GET" "/users/2" {[ "id" := "2" ]} (BadJSON "EOF")) seeded
         = (w', seeded) ∧
         status w' = Some StatusOK ∧ body w' = [Encoded (JUser jane)]) ∧
  (∃ w', getUserHandler newResponseWriter
           (mkReq "GET" "/users/9" {[ "id" := "9" ]} (BadJSON "EOF")) seeded
         = (w', seeded) ∧
         status w' = Some StatusNotFound ∧
         body w' = [Text ("User not found" ++ newline)]).
Proof.
  split; [reflexivity|]. split.
  - exact (getUserHandler_found_or_404 newResponseWriter
      (mkReq "GET" "/users/2" {[ "id" := "2" ]} (BadJSON "EOF")) seeded eq_refl).
  - exact (getUserHandler_found_or_404 newResponseWriter
      (mkReq "GET" "/users/9" {[ "id" := "9" ]} (BadJSON "EOF")) seeded eq_refl).
Defined.

(** X7.  The delete handler removes the record held under the route variable
    [id] and answers 204 with nothing written to the body; afterwards that
    identifier is absent and every other one is as before.  If no record is
    held under it, the answer is 404 with the text "User not found" and the
    store is left as it was. *)
Theorem deleteUserHandler_204_or_404
    (w : ResponseWriter) (r : Request) (s : UserStore) :
  committed w = None →
  let id := mux_Vars r "id" in
  match users s !! id with
  | Some old =>
      ∃ w' s', deleteUserHandler w r s = (w', s') ∧
               status w' = Some StatusNoContent ∧
               body w' = body w ∧
               Get s' id = (zeroUser, false) ∧
               (∀ y, y ≠ id → Get s' y = Get s y) ∧
               slice_elems (GetAll s) ≡ₚ old :: slice_elems (GetAll s')
  | None =>
      ∃ w', deleteUserHandler w r s = (w', s) ∧
            status w' = Some StatusNotFound ∧
            body w' = (body w ++ [Text ("User not found" ++ newline)%string])%list
  end.
Proof.
  intros Hw id. unfold deleteUserHandler, Delete. fold id.
  destruct s as [m]. simpl.
  destruct (m !! id) as [old|] eqn:Hold; simpl.
  - eexists _, _. split; [reflexivity|].
    split; [by apply status_WriteHeader|].
    split; [by rewrite body_WriteHeader|].
    split; [apply Get_None; simpl; apply lookup_delete_eq|].
    split; [|by apply GetAll_delete].
    intros y Hy. apply Get_ext. simpl. by apply lookup_delete_ne.
  - eexists. split; [reflexivity|]. by apply http_Error_fresh.
Qed.

Lemma deleteUserHandler_204_or_404_witness :
  committed newResponseWriter = None ∧
  (∃ w' s', deleteUserHandler newResponseWriter
              (mkReq "DELETE" "/users/2" {[ "id" := "2" ]} (BadJSON "EOF")) seeded
            = (w', s') ∧
            status w' = Some StatusNoContent ∧
            body w' = [] ∧
            Get s' "2" = (zeroUser, false) ∧
            (∀ y, y ≠ "2" → Get s' y = Get seeded y) ∧
            slice_elems (GetAll seeded) ≡ₚ jane :: slice_elems (GetAll s')) ∧
  (∃ w', deleteUserHandler newResponseWriter
           (mkReq "DELETE" "/users/9" {[ "id" := "9" ]} (BadJSON "EOF")) seeded
         = (w', seeded) ∧
         status w' = Some StatusNotFound ∧
         body w' = [Text ("User not found" ++ newline)]).
Proof.
  split; [reflexivity|]. split.
  - exact (deleteUserHandler_204_or_404 newResponseWriter
      (mkReq "DELETE" "/users/2" {[ "id" := "2" ]} (BadJSON "EOF")) seeded eq_refl).
  - exact (deleteUserHandler_204_or_404 newResponseWriter
      (mkReq "DELETE" "/users/9" {[ "id" := "9" ]} (BadJSON "EOF")) seeded eq_refl).
Defined.

(** X8.  A body that fails to decode is answered alike by the create and the
    update handler: 400, the decoder's error text as the body, and the store
    left as it was, whatever the path identifier and the store. *)
Theorem undecodable_body_400
    (w : ResponseWriter) (r : Request) (s : UserStore) (err : string) :
  committed w = None →
  Body r = BadJSON err →
  ∃ w', createUserHandler w r s = (w', s) ∧
        updateUserHandler w r s = (w', s) ∧
        status w' = Some StatusBadRequest ∧
        body w' = (body w ++ [Text (err ++ newline)%string])%list.
Proof.
  intros Hw Hbody. exists (http_Error w err StatusBadRequest).
  split; [by apply createUserHandler_bad_json|].
  split; [by apply updateUserHandler_bad_json|].
  by apply http_Error_fresh.
Qed.

Lemma undecodable_body_400_witness :
  committed newResponseWriter = None ∧
  Body (put_id "1" (BadJSON "unexpected EOF")) = BadJSON "unexpected EOF" ∧
  ∃ w', createUserHandler newResponseWriter
          (put_id "1" (BadJSON "unexpected EOF")) seeded = (w', seeded) ∧
        updateUserHandler newResponseWriter
          (put_id "1" (BadJSON "unexpected EOF")) seeded = (w', seeded) ∧
        status w' = Some StatusBadRequest ∧
        body w' = [Text ("unexpected EOF" ++ newline)].
Proof.
  split; [reflexivity|]. split; [reflexivity|].
  exact (undecodable_body_400 newResponseWriter
    (put_id "1" (BadJSON "unexpected EOF")) seeded "unexpected EOF"
    eq_refl eq_refl).
Defined.

(** * The server as a whole *)

(** The route table of [main], read as one decision on path and method. *)
Lemma mux_match_routes (r : Request) :
  mux_match routes r false
  = if bool_decide (Path r = "/health") then
      if bool_decide (Method r = "GET") then Matched healthCheckHandler ∅
      else MethodMismatch
    else if bool_decide (Path r = "/users") then
      if bool_decide (Method r = "POST") then Matched createUserHandler ∅
      else if bool_decide (Method r = "GET") then Matched getAllUsersHandler ∅
      else MethodMismatch
    else
      match users_id_path (Path r) with
      | Some vars =>
          if bool_decide (Method r = "GET") then Matched getUserHandler vars
          else if bool_decide (Method r = "PUT")
               then Matched updateUserHandler vars
          else if bool_decide (Method r = "DELETE")
               then Matched deleteUserHandler vars
          else MethodMismatch
      | None => NoMatch
      end.
Proof.
  unfold routes, mux_match, route_path, route_method, route_handler, exact_path.
  destruct r as [method path vars b]. simpl.
  destruct (bool_decide (path = "/health")) eqn:Hh.
  - apply bool_decide_eq_true_1 in Hh as ->.
    rewrite (bool_decide_eq_false_2 ("/health" = "/users")) by discriminate.
    replace (users_id_path "/health") with (@None (gmap string string))
      by (by vm_compute).
    by destruct (bool_decide (method = "GET")).
  - destruct (bool_decide (path = "/users")) eqn:Hu.
    + apply bool_decide_eq_true_1 in Hu as ->.
      replace (users_id_path "/users") with (@None (gmap string string))
        by (by vm_compute).
      destruct (bool_decide (method = "POST")); [done|].
      by destruct (bool_decide (method = "GET")).
    + destruct (users_id_path path) as [vars'|]; [|done].
      destruct (bool_decide (method = "GET")); [done|].
      destruct (bool_decide (method = "PUT")); [done|].
      by destruct (bool_decide (method = "DELETE")).
Qed.

Lemma serve_not_options (cleanRedirect : Request → option string)
    (r : Request) (s : UserStore) :
  Method r ≠ "OPTIONS" →
  serve cleanRedirect r s
  = (finishRequest (router cleanRedirect (setCorsHeaders newResponseWriter) r s).1,
     (router cleanRedirect (setCorsHeaders newResponseWriter) r s).2).
Proof.
  intros Hm. unfold serve, corsMiddleware.
  rewrite bool_decide_eq_false_2 by done.
  by destruct (router cleanRedirect _ r s).
Qed.

Lemma serve_options (cleanRedirect : Request → option string)
    (r : Request) (s : UserStore) :
  Method r = "OPTIONS" →
  serve cleanRedirect r s
  = (WriteHeader StatusOK (setCorsHeaders newResponseWriter), s).
Proof.
  intros Hm. unfold serve, corsMiddleware.
  by rewrite bool_decide_eq_true_2.
Qed.

Lemma committed_setCorsHeaders (w : ResponseWriter) :
  committed (setCorsHeaders w) = committed w.
Proof. done. Qed.

Lemma body_setCorsHeaders (w : ResponseWriter) :
  body (setCorsHeaders w) = body w.
Proof. done. Qed.

Lemma finishRequest_sent (w : ResponseWriter) (code : nat) :
  status w = Some code →
  finishRequest w = w.
Proof.
  unfold status, finishRequest, WriteHeader.
  by destruct (committed w).
Qed.

Lemma getUserHandler_store (w : ResponseWriter) (r : Request) (s : UserStore) :
  (getUserHandler w r s).2 = s.
Proof.
  unfold getUserHandler. by destruct (Get s (mux_Vars r "id")) as [user [|]].
Qed.

Lemma router_store_unless_mutating (cleanRedirect : Request → option string)
    (w : ResponseWriter) (r : Request) (s : UserStore) :
  ¬ mutating r → (router cleanRedirect w r s).2 = s.
Proof.
  intros Hr. unfold router.
  destruct (cleanRedirect r) as [location|]; [done|].
  rewrite mux_match_routes.
  case_bool_decide as Hhealth.
  { by case_bool_decide. }
  case_bool_decide as Husers.
  { case_bool_decide as Hpost.
    - destruct Hr. left. done.
    - by case_bool_decide. }
  destruct (users_id_path (Path r)) as [vars|] eqn:Hvars; [|done].
  case_bool_decide as Hget; [apply getUserHandler_store|].
  case_bool_decide as Hput.
  { destruct Hr. right. left. split; [done|]. rewrite Hvars. by eexists. }
  case_bool_decide as Hdel; [|done].
  destruct Hr. right. right. split; [done|]. rewrite Hvars. by eexists.
Qed.

(** X9.  The store is written only through POST /users, PUT /users/{id} and
    DELETE /users/{id}.  Every other request (any GET, an OPTIONS preflight,
    a request the router redirects, turns down or does not know) leaves the
    store exactly as it was. *)
Theorem store_written_only_by_mutating_routes
    (cleanRedirect : Request → option string) (r : Request) (s : UserStore) :
  ¬ mutating r → (serve cleanRedirect r s).2 = s.
Proof.
  intros Hr. destruct (decide (Method r = "OPTIONS")) as [Hm|Hm].
  - by rewrite serve_options.
  - rewrite serve_not_options by done. simpl.
    by apply router_store_unless_mutating.
Qed.

Lemma store_written_only_by_mutating_routes_witness :
  ¬ mutating (req "GET" "/users/1" (obj (Some "1") (Some "x") (Some "y"))) ∧
  (serve (λ _, None)
     (req "GET" "/users/1" (obj (Some "1") (Some "x") (Some "y"))) seeded).2
  = seeded.
Proof.
  assert (H : ¬ mutating
                (req "GET" "/users/1" (obj (Some "1") (Some "x") (Some "y")))).
  { intros [[Hm _]|[[Hm _]|[Hm _]]]; simpl in Hm; discriminate Hm. }
  split; [exact H|].
  exact (store_written_only_by_mutating_routes (λ _, None)
    (req "GET" "/users/1" (obj (Some "1") (Some "x") (Some "y"))) seeded H).
Defined.

(** ** The invariant of the store *)

Lemma store_inv_Create (user : User) (s : UserStore) :
  ID user ≠ "" → store_inv s → store_inv (Create user s).
Proof.
  intros Hid [Hk He]. split; [by apply keyed_Create|].
  simpl. by rewrite lookup_insert_ne.
Qed.

Lemma store_inv_createUserHandler (w : ResponseWriter) (r : Request)
    (s : UserStore) :
  store_inv s → store_inv (createUserHandler w r s).2.
Proof.
  intros Hs. unfold createUserHandler.
  destruct (Decode (Body r) zeroUser) as [err|user]; [done|].
  case_bool_decide as Hid; [done|]. simpl.
  destruct (_ || _); [done|]. simpl. by apply store_inv_Create.
Qed.

Lemma store_inv_updateUserHandler (w : ResponseWriter) (r : Request)
    (s : UserStore) :
  store_inv s → store_inv (updateUserHandler w r s).2.
Proof.
  intros Hs. unfold updateUserHandler.
  destruct (Decode (Body r) zeroUser) as [err|user]; [done|].
  unfold Update. simpl.
  destruct (users s !! mux_Vars r "id") as [old|] eqn:Hold; [|done]. simpl.
  apply (store_inv_Create (mkUser (mux_Vars r "id") (Name user) (Email user)));
    [|done].
  simpl. intros Hid. destruct Hs as [_ He]. rewrite Hid in Hold. congruence.
Qed.

Lemma store_inv_deleteUserHandler (w : ResponseWriter) (r : Request)
    (s : UserStore) :
  store_inv s → store_inv (deleteUserHandler w r s).2.
Proof.
  intros [Hk He]. unfold deleteUserHandler.
  pose proof (keyed_Delete (mux_Vars r "id") s Hk) as Hk'.
  unfold Delete in *.
  destruct (users s !! mux_Vars r "id") as [old|]; simpl in *; [|done].
  split; [done|]. simpl. apply lookup_delete_None. by right.
Qed.

Lemma store_inv_router (cleanRedirect : Request → option string)
    (w : ResponseWriter) (r : Request) (s : UserStore) :
  store_inv s → store_inv (router cleanRedirect w r s).2.
Proof.
  intros Hs. unfold router.
  destruct (cleanRedirect r) as [location|]; [done|].
  rewrite mux_match_routes.
  case_bool_decide as Hhealth.
  { by case_bool_decide. }
  case_bool_decide as Husers.
  { case_bool_decide as Hpost; [by apply store_inv_createUserHandler|].
    by case_bool_decide. }
  destruct (users_id_path (Path r)) as [vars|]; [|done].
  case_bool_decide as Hget; [by rewrite getUserHandler_store|].
  case_bool_decide as Hput; [by apply store_inv_updateUserHandler|].
  case_bool_decide as Hdel; [by apply store_inv_deleteUserHandler|done].
Qed.

Lemma store_inv_serve (cleanRedirect : Request → option string)
    (r : Request) (s : UserStore) :
  store_inv s → store_inv (serve cleanRedirect r s).2.
Proof.
  intros Hs. destruct (decide (Method r = "OPTIONS")) as [Hm|Hm].
  - by rewrite serve_options.
  - rewrite serve_not_options by done. simpl. by apply store_inv_router.
Qed.

Lemma store_inv_serve_all (cleanRedirect : Request → option string)
    (rs : list Request) (s : UserStore) :
  store_inv s → store_inv (serve_all cleanRedirect rs s).2.
Proof.
  revert s. induction rs as [|r rs IH]; intros s Hs; [done|].
  simpl. pose proof (store_inv_serve cleanRedirect r s Hs) as Hs'.
  destruct (serve cleanRedirect r s) as [w s']. simpl in Hs'.
  specialize (IH s' Hs').
  by destruct (serve_all cleanRedirect rs s') as [ws s''].
Qed.

Lemma store_inv_seeded : store_inv seeded.
Proof.
  split; [|reflexivity].
  apply keyed_Create, keyed_Create, keyed_NewUserStore.
Qed.

(** X10.  Whatever requests are served, in whatever order, the store stays
    well formed: every record sits under its own identifier, no record has
    the empty identifier, and the records listed by [GetAll] have pairwise
    distinct identifiers.  The store [main] seeds is well formed. *)
Theorem server_keeps_store_well_formed
    (cleanRedirect : Request → option string)
    (rs : list Request) (s : UserStore) :
  store_inv seeded ∧
  (store_inv s →
   store_inv (serve_all cleanRedirect rs s).2 ∧
   NoDup (stored_ids (serve_all cleanRedirect rs s).2) ∧
   "" ∉ stored_ids (serve_all cleanRedirect rs s).2).
Proof.
  split; [apply store_inv_seeded|]. intros Hs.
  pose proof (store_inv_serve_all cleanRedirect rs s Hs) as [Hk He].
  split; [done|]. split; [by apply stored_ids_NoDup|].
  rewrite stored_ids_keys by done. intros Hin.
  apply list_elem_of_fmap in Hin as ([k u] & Hk' & Hin). simpl in Hk'. subst k.
  apply elem_of_map_to_list in Hin. congruence.
Qed.

Lemma server_keeps_store_well_formed_witness :
  store_inv seeded ∧
  store_inv (serve_all (λ _, None)
               [put_id "1" (obj None None None);
                req "POST" "/users" (obj (Some "3") (Some "A") (Some "a@x.com"));
                req "DELETE" "/users/2" (BadJSON "EOF")] seeded).2 ∧
  NoDup (stored_ids (serve_all (λ _, None)
               [put_id "1" (obj None None None);
                req "POST" "/users" (obj (Some "3") (Some "A") (Some "a@x.com"));
                req "DELETE" "/users/2" (BadJSON "EOF")] seeded).2) ∧
  "" ∉ stored_ids (serve_all (λ _, None)
               [put_id "1" (obj None None None);
                req "POST" "/users" (obj (Some "3") (Some "A") (Some "a@x.com"));
                req "DELETE" "/users/2" (BadJSON "EOF")] seeded).2.
Proof.
  split; [exact store_inv_seeded|].
  exact (proj2 (server_keeps_store_well_formed (λ _, None)
    [put_id "1" (obj None None None);
     req "POST" "/users" (obj (Some "3") (Some "A") (Some "a@x.com"));
     req "DELETE" "/users/2" (BadJSON "EOF")] seeded) store_inv_seeded).
Defined.

(** ** Status codes *)

Ltac in_statuses := apply (bool_decide_unpack _); by vm_compute.

Lemma status_known_WriteHeader (code : nat) (w : ResponseWriter) :
  code ∈ statuses → status_known w → status_known (WriteHeader code w).
Proof.
  intros Hcode Hw. unfold status_known, status, WriteHeader in *.
  destruct (committed w) as [c|] eqn:Hc; simpl.
  - by rewrite Hc.
  - done.
Qed.

Lemma status_known_writeBody (p : Payload) (w : ResponseWriter) :
  status_known w → status_known (writeBody p w).
Proof.
  intros Hw. unfold status_known. rewrite status_writeBody.
  apply status_known_WriteHeader; [in_statuses | done].
Qed.

Lemma status_known_http_Error (w : ResponseWriter) (msg : string) (code : nat) :
  code ∈ statuses → status_known w → status_known (http_Error w msg code).
Proof.
  intros Hcode Hw. unfold http_Error.
  by apply status_known_writeBody, status_known_WriteHeader.
Qed.

Lemma status_known_router (cleanRedirect : Request → option string) :
  keeps_status_known (router cleanRedirect).
Proof.
  assert (∀ c, c ∈ statuses → ∀ w msg, status_known w →
               status_known (http_Error w msg c)) as Herr.
  { intros. by apply status_known_http_Error. }
  assert (∀ w v, status_known w → status_known (Encode v w)) as Henc.
  { intros. by apply status_known_writeBody. }
  assert (∀ c, c ∈ statuses → ∀ w, status_known w →
               status_known (WriteHeader c w)) as Hwh.
  { intros. by apply status_known_WriteHeader. }
  assert (StatusBadRequest ∈ statuses) as H400 by in_statuses.
  assert (StatusNotFound ∈ statuses) as H404 by in_statuses.
  intros w r s Hw. unfold router.
  destruct (cleanRedirect r) as [location|].
  { apply Hwh; [in_statuses | done]. }
  rewrite mux_match_routes.
  case_bool_decide as Hhealth.
  { case_bool_decide; [|apply Hwh; [in_statuses | done]].
    apply Henc, Hwh; [in_statuses | done]. }
  case_bool_decide as Husers.
  { case_bool_decide as Hpost.
    - unfold createUserHandler. simpl.
      destruct (Decode (Body r) zeroUser) as [err|user]; [by apply Herr|].
      destruct (_ || _); [by apply Herr|].
      apply Henc, Hwh; [in_statuses | done].
    - case_bool_decide; [by apply Henc|].
      apply Hwh; [in_statuses | done]. }
  destruct (users_id_path (Path r)) as [vars|]; [|by apply Herr].
  case_bool_decide as Hget.
  { unfold getUserHandler.
    destruct (Get s _) as [user [|]]; simpl; [by apply Henc | by apply Herr]. }
  case_bool_decide as Hput.
  { unfold updateUserHandler. simpl.
    destruct (Decode (Body r) zeroUser) as [err|user]; [by apply Herr|].
    destruct (Update _ s) as [s' [|]]; simpl; [by apply Henc | by apply Herr]. }
  case_bool_decide as Hdel; [|apply Hwh; [in_statuses | done]].
  unfold deleteUserHandler.
  destruct (Delete _ s) as [s' [|]]; simpl; [|by apply Herr].
  apply Hwh; [in_statuses | done].
Qed.

(** X11.  Every response written by the handler chain that [main] passes
    to the listener (the middleware around the router and the six handlers)
    has a status, and it is one of the seven the program works with: 200,
    201, 204, 301, 400, 404 or 405.  No handler, middleware branch or routing
    outcome produces a 5xx status.  Responses the HTTP library writes without
    calling the handler chain are not covered. *)
Theorem serve_status_known
    (cleanRedirect : Request → option string) (r : Request) (s : UserStore) :
  ∃ code, status (serve cleanRedirect r s).1 = Some code ∧
          code ∈ statuses ∧ code < 500.
Proof.
  assert (∀ w, status_known w →
            ∃ code, status (finishRequest w) = Some code ∧
                    code ∈ statuses ∧ code < 500) as Hfin.
  { intros w Hw.
    pose proof (status_known_WriteHeader StatusOK w) as Hk.
    unfold finishRequest, status_known in *.
    assert (is_Some (status (WriteHeader StatusOK w))) as [code Hcode].
    { unfold status, WriteHeader.
      destruct (committed w) as [c|] eqn:Hc; [rewrite Hc|]; by eexists. }
    rewrite Hcode in Hk. exists code. split; [done|].
    assert (code ∈ statuses) as Hin by (apply Hk; [in_statuses | done]).
    split; [done|].
    unfold statuses in Hin. rewrite !elem_of_cons, elem_of_nil in Hin.
    unfold StatusOK, StatusCreated, StatusNoContent, StatusMovedPermanently,
      StatusBadRequest, StatusNotFound, StatusMethodNotAllowed in Hin. lia. }
  destruct (decide (Method r = "OPTIONS")) as [Hm|Hm].
  - rewrite serve_options by done. simpl.
    exists StatusOK. split; [done|]. split; [in_statuses|].
    unfold StatusOK. lia.
  - rewrite serve_not_options by done. simpl. apply Hfin.
    by apply status_known_router.
Qed.

(** ** Requests end to end *)

Lemma serve_matched (cleanRedirect : Request → option string)
    (r : Request) (s : UserStore) (h : Handler) (vars : gmap string string) :
  Method r ≠ "OPTIONS" →
  cleanRedirect r = None →
  mux_match routes r false = Matched h vars →
  serve cleanRedirect r s
  = (finishRequest
       (h (setCorsHeaders newResponseWriter)
          (mkReq (Method r) (Path r) vars (Body r)) s).1,
     (h (setCorsHeaders newResponseWriter)
        (mkReq (Method r) (Path r) vars (Body r)) s).2).
Proof.
  intros Hm Hc Hmatch. rewrite serve_not_options by done.
  unfold router. by rewrite Hc, Hmatch.
Qed.

Lemma serve_unmatched (cleanRedirect : Request → option string)
    (r : Request) (s : UserStore) :
  Method r ≠ "OPTIONS" →
  cleanRedirect r = None →
  (mux_match routes r false = MethodMismatch →
   serve cleanRedirect r s
   = (WriteHeader StatusMethodNotAllowed (setCorsHeaders newResponseWriter), s)) ∧
  (mux_match routes r false = NoMatch →
   serve cleanRedirect r s
   = (http_Error (setCorsHeaders newResponseWriter) "404 page not found"
        StatusNotFound, s)).
Proof.
  intros Hm Hc. rewrite serve_not_options by done. unfold router. rewrite Hc.
  split; intros ->; simpl; f_equal.
Qed.

(** X12.  A record created through POST /users is served back by GET
    /users/{id}, provided the router redirects neither request.  For a body
    that decodes to a record with non-empty name and email and an identifier
    that fits in one path segment, and with neither the POST nor the GET
    redirected by the router's path cleaning, the POST is answered 201 with
    the record, the store afterwards is the old one with the record created,
    and the GET on the record's path that follows is answered 200 with
    exactly that record.  (Paths that are not in clean form, such as an
    identifier [.] or [..], are redirected and fall outside the statement.) *)
Theorem created_user_is_served
    (cleanRedirect : Request → option string) (user : User) (s : UserStore)
    (b b' : ReqBody) (vars vars' : gmap string string) :
  Decode b zeroUser = inr user →
  segment (ID user) → Name user ≠ "" → Email user ≠ "" →
  cleanRedirect (mkReq "POST" "/users" vars b) = None →
  cleanRedirect (mkReq "GET" ("/users/" ++ ID user) vars' b') = None →
  ∃ w1 w2,
    serve_all cleanRedirect
      [mkReq "POST" "/users" vars b;
       mkReq "GET" ("/users/" ++ ID user) vars' b'] s
    = ([w1; w2], Create user s) ∧
    status w1 = Some StatusCreated ∧ body w1 = [Encoded (JUser user)] ∧
    status w2 = Some StatusOK ∧ body w2 = [Encoded (JUser user)].
Proof.
  intros Hdec Hseg Hname Hemail Hc1 Hc2.
  assert (ID user ≠ "") as Hid by apply Hseg.
  assert (committed (setCorsHeaders newResponseWriter) = None) as Hw0 by done.
  (* the POST *)
  pose proof (serve_matched cleanRedirect (mkReq "POST" "/users" vars b) s
                createUserHandler ∅) as Hpost.
  rewrite mux_match_routes in Hpost. simpl in Hpost.
  specialize (Hpost ltac:(discriminate) Hc1 eq_refl).
  rewrite (createUserHandler_valid _ (mkReq "POST" "/users" ∅ b) s user
             Hdec Hid Hname Hemail) in Hpost.
  simpl in Hpost.
  destruct (Encode_after_WriteHeader (JUser user) StatusCreated _ Hw0)
    as [Hst1 Hb1].
  rewrite (finishRequest_sent _ _ Hst1) in Hpost.
  (* the GET *)
  assert (users_id_path ("/users/" ++ ID user) = Some {[ "id" := ID user ]})
    as Hpath.
  { by apply users_id_path_of_segment. }
  destruct (users_id_path_not_fixed _ _ Hpath) as [Hnh Hnu].
  pose proof (serve_matched cleanRedirect
                (mkReq "GET" ("/users/" ++ ID user) vars' b') (Create user s)
                getUserHandler {[ "id" := ID user ]}) as Hget.
  rewrite mux_match_routes in Hget.
  cbn [Method Path Body] in Hget.
  rewrite (bool_decide_eq_false_2 _ Hnh), (bool_decide_eq_false_2 _ Hnu) in Hget.
  rewrite Hpath in Hget.
  rewrite (bool_decide_eq_true_2 ("GET" = "GET")) in Hget by done.
  specialize (Hget ltac:(discriminate) Hc2 eq_refl).
  unfold getUserHandler, mux_Vars in Hget. cbn [Vars] in Hget.
  rewrite lookup_singleton_eq in Hget. cbn [default] in Hget.
  rewrite Get_Create in Hget. cbn [negb fst snd] in Hget.
  destruct (Encode_fresh (JUser user) _ Hw0) as [Hst2 Hb2].
  rewrite (finishRequest_sent _ _ Hst2) in Hget.
  eexists _, _. split.
  - unfold serve_all. rewrite Hpost, Hget. reflexivity.
  - done.
Qed.

Lemma created_user_is_served_witness :
  Decode (obj (Some "3") (Some "Alice Johnson") (Some "alice@example.com"))
         zeroUser = inr alice ∧
  segment (ID alice) ∧ Name alice ≠ "" ∧ Email alice ≠ "" ∧
  ∃ w1 w2,
    serve_all (λ _, None)
      [mkReq "POST" "/users" ∅
         (obj (Some "3") (Some "Alice Johnson") (Some "alice@example.com"));
       mkReq "GET" ("/users/" ++ ID alice) ∅ (BadJSON "EOF")] seeded
    = ([w1; w2], Create alice seeded) ∧
    status w1 = Some StatusCreated ∧ body w1 = [Encoded (JUser alice)] ∧
    status w2 = Some StatusOK ∧ body w2 = [Encoded (JUser alice)].
Proof.
  assert (Hseg : segment (ID alice)).
  { split; [simpl; discriminate|].
    apply (bool_decide_unpack _). vm_compute. exact I. }
  assert (Hname : Name alice ≠ "") by (simpl; discriminate).
  assert (Hemail : Email alice ≠ "") by (simpl; discriminate).
  split; [reflexivity|]. split; [exact Hseg|].
  split; [exact Hname|]. split; [exact Hemail|].
  exact (created_user_is_served (λ _, None) alice seeded
    (obj (Some "3") (Some "Alice Johnson") (Some "alice@example.com"))
    (BadJSON "EOF") ∅ ∅ eq_refl Hseg Hname Hemail eq_refl eq_refl).
Defined.

(** X13.  GET /health is answered 200 with the fixed two-entry status
    object, whatever the store holds and whatever body the request carries,
    and the store is left as it was. *)
Theorem health_check_always_healthy
    (cleanRedirect : Request → option string) (r : Request) (s : UserStore) :
  Method r = "GET" → Path r = "/health" → cleanRedirect r = None →
  ∃ w' m,
    serve cleanRedirect r s = (w', s) ∧
    status w' = Some StatusOK ∧
    body w' = [Encoded (JStrMap m)] ∧
    map_to_list m ≡ₚ [("status", "healthy"); ("service", "user-service")].
Proof.
  intros Hm Hp Hc.
  pose proof (serve_matched cleanRedirect r s healthCheckHandler ∅) as Hs.
  rewrite mux_match_routes, Hp, Hm in Hs.
  specialize (Hs ltac:(discriminate) Hc eq_refl).
  eexists _, _. split; [exact Hs|].
  split; [done|]. split; [done|].
  rewrite map_to_list_insert by done.
  by rewrite map_to_list_singleton.
Qed.

Lemma health_check_always_healthy_witness :
  Method (req "GET" "/health" (BadJSON "EOF")) = "GET" ∧
  Path (req "GET" "/health" (BadJSON "EOF")) = "/health" ∧
  ∃ w' m,
    serve (λ _, None) (req "GET" "/health" (BadJSON "EOF")) NewUserStore
    = (w', NewUserStore) ∧
    status w' = Some StatusOK ∧
    body w' = [Encoded (JStrMap m)] ∧
    map_to_list m ≡ₚ [("status", "healthy"); ("service", "user-service")].
Proof.
  split; [reflexivity|]. split; [reflexivity|].
  exact (health_check_always_healthy (λ _, None)
    (req "GET" "/health" (BadJSON "EOF")) NewUserStore eq_refl eq_refl eq_refl).
Defined.

(** X14.  A request other than OPTIONS that the router does not redirect
    and that is outside the route table never reaches a handler.  If its
    path is none of /health, /users and /users/{id} it is answered 404 with
    the text "404 page not found"; if its path is known but its method is
    not registered for that path it is answered 405 with nothing written to
    the body.  In both cases the store is left as it was.  (OPTIONS requests
    are answered by the middleware, and paths not in clean form by a
    redirect, before the route table is consulted.) *)
Theorem unrouted_requests_404_405
    (cleanRedirect : Request → option string) (r : Request) (s : UserStore) :
  Method r ≠ "OPTIONS" → cleanRedirect r = None →
  (Path r ≠ "/health" → Path r ≠ "/users" → users_id_path (Path r) = None →
   ∃ w', serve cleanRedirect r s = (w', s) ∧
         status w' = Some StatusNotFound ∧
         body w' = [Text ("404 page not found" ++ newline)]) ∧
  ((Path r = "/health" ∧ Method r ≠ "GET") ∨
   (Path r = "/users" ∧ Method r ≠ "GET" ∧ Method r ≠ "POST") ∨
   (is_Some (users_id_path (Path r)) ∧
    Method r ≠ "GET" ∧ Method r ≠ "PUT" ∧ Method r ≠ "DELETE") →
   ∃ w', serve cleanRedirect r s = (w', s) ∧
         status w' = Some StatusMethodNotAllowed ∧
         body w' = []).
Proof.
  intros Hm Hc.
  destruct (serve_unmatched cleanRedirect r s Hm Hc) as [H405 H404].
  rewrite mux_match_routes in H405, H404. split.
  - intros Hh Hu Hid.
    rewrite (bool_decide_eq_false_2 _ Hh), (bool_decide_eq_false_2 _ Hu), Hid
      in H404.
    eexists. split; [exact (H404 eq_refl)|].
    by apply (http_Error_fresh (setCorsHeaders newResponseWriter)).
  - intros Hcase.
    exists (WriteHeader StatusMethodNotAllowed (setCorsHeaders newResponseWriter)).
    split; [|done]. apply H405.
    destruct Hcase as [[Hp Hg]|[(Hp & Hg & Hpost)|([vars Hv] & Hg & Hput & Hdel)]].
    + rewrite Hp. simpl. by rewrite (bool_decide_eq_false_2 _ Hg).
    + rewrite Hp. simpl.
      by rewrite (bool_decide_eq_false_2 _ Hg), (bool_decide_eq_false_2 _ Hpost).
    + destruct (users_id_path_not_fixed _ _ Hv) as [Hnh Hnu].
      rewrite (bool_decide_eq_false_2 _ Hnh), (bool_decide_eq_false_2 _ Hnu), Hv.
      by rewrite (bool_decide_eq_false_2 _ Hg), (bool_decide_eq_false_2 _ Hput),
        (bool_decide_eq_false_2 _ Hdel).
Qed.

Lemma unrouted_requests_404_405_witness :
  (∃ w', serve (λ _, None) (req "GET" "/orders" (BadJSON "EOF")) seeded
         = (w', seeded) ∧
         status w' = Some StatusNotFound ∧
         body w' = [Text ("404 page not found" ++ newline)]) ∧
  (∃ w', serve (λ _, None) (req "PATCH" "/users/1" (obj None (Some "x") None))
           seeded = (w', seeded) ∧
         status w' = Some StatusMethodNotAllowed ∧
         body w' = []).
Proof.
  split.
  - refine (proj1 (unrouted_requests_404_405 (λ _, None)
      (req "GET" "/orders" (BadJSON "EOF")) seeded _ eq_refl) _ _ eq_refl);
      simpl; discriminate.
  - refine (proj2 (unrouted_requests_404_405 (λ _, None)
      (req "PATCH" "/users/1" (obj None (Some "x") None)) seeded _ eq_refl) _).
    + simpl; discriminate.
    + right. right. split; [by eexists|].
      repeat split; simpl; discriminate.
Defined.

(** * Listing and independence of identifiers *)

(** X15.  The get-all handler answers 200 with one sequence, never [nil],
    that holds as many records as the store and, in a store whose records
    sit under their own identifiers, exactly the records [Get] finds.  The
    store is left as it was. *)
Theorem getAllUsersHandler_lists_store
    (w : ResponseWriter) (r : Request) (s : UserStore) :
  committed w = None →
  ∃ w' l,
    getAllUsersHandler w r s = (w', s) ∧
    status w' = Some StatusOK ∧
    body w' = (body w ++ [Encoded (JUsers (SliceOf l))])%list ∧
    length l = size (users s) ∧
    (keyed_by_id s → ∀ user, user ∈ l ↔ Get s (ID user) = (user, true)).
Proof.
  intros Hw. exists (Encode (JUsers (GetAll s)) w), ((map_to_list (users s)).*2).
  split; [done|].
  destruct (Encode_fresh (JUsers (GetAll s)) w Hw) as [Hst Hb].
  split; [done|]. split.
  { rewrite Hb. unfold GetAll. by rewrite GetAllIn_values. }
  split.
  { by rewrite length_fmap, length_map_to_list. }
  intros Hs user. rewrite Get_true_lookup, list_elem_of_fmap. split.
  - intros ([k u] & -> & Hin). simpl.
    apply elem_of_map_to_list in Hin. by rewrite (Hs k u Hin).
  - intros Hm. exists (ID user, user). split; [done|].
    by apply elem_of_map_to_list.
Qed.

Lemma getAllUsersHandler_lists_store_witness :
  committed newResponseWriter = None ∧ keyed_by_id seeded ∧
  ∃ w' l,
    getAllUsersHandler newResponseWriter (req "GET" "/users" (BadJSON "EOF"))
      seeded = (w', seeded) ∧
    status w' = Some StatusOK ∧
    body w' = [Encoded (JUsers (SliceOf l))] ∧
    length l = 2 ∧
    (john ∈ l ↔ Get seeded (ID john) = (john, true)).
Proof.
  assert (Hk : keyed_by_id seeded).
  { apply keyed_Create, keyed_Create, keyed_NewUserStore. }
  split; [reflexivity|]. split; [exact Hk|].
  destruct (getAllUsersHandler_lists_store newResponseWriter
              (req "GET" "/users" (BadJSON "EOF")) seeded eq_refl)
    as (w' & l & H1 & H2 & H3 & H4 & H5).
  exists w', l. split; [exact H1|]. split; [exact H2|]. split; [exact H3|].
  split; [exact H4 | exact (H5 Hk john)].
Defined.

Lemma apply_op_other (o : Op) (s : UserStore) (id : string) :
  op_key o ≠ id → users (apply_op s o) !! id = users s !! id.
Proof.
  intros Hid. destruct o as [user|user|id']; simpl in *.
  - by apply lookup_insert_ne.
  - unfold Update. destruct (users s !! ID user); simpl; [|done].
    by apply lookup_insert_ne.
  - unfold Delete. destruct (users s !! id'); simpl; [|done].
    by apply lookup_delete_ne.
Qed.

Lemma apply_op_same (o : Op) (s1 s2 : UserStore) :
  users s1 !! op_key o = users s2 !! op_key o →
  users (apply_op s1 o) !! op_key o = users (apply_op s2 o) !! op_key o.
Proof.
  intros Heq. destruct o as [user|user|id]; simpl in *.
  - by rewrite !lookup_insert_eq.
  - unfold Update. rewrite Heq.
    destruct (users s2 !! ID user) eqn:Hs2; simpl; [|congruence].
    by rewrite !lookup_insert_eq.
  - unfold Delete. rewrite Heq.
    destruct (users s2 !! id) eqn:Hs2; simpl; [|congruence].
    by rewrite !lookup_delete_eq.
Qed.

Lemma run_only_own_ops (ops : list Op) (s1 s2 : UserStore) (id : string) :
  users s1 !! id = users s2 !! id →
  users (run ops s1) !! id
  = users (run (filter (λ o, op_key o = id) ops) s2) !! id.
Proof.
  revert s1 s2. induction ops as [|o ops IH]; intros s1 s2 Heq; [done|].
  rewrite filter_cons. simpl. case_decide as Hkey.
  - simpl. apply IH. subst id. by apply apply_op_same.
  - apply IH. by rewrite apply_op_other.
Qed.

(** X16.  Identifiers are independent of each other.  What [Get] finds
    under an identifier after any sequence of Create, Update and Delete
    calls is what it finds after only those calls of the sequence that are
    keyed on this identifier, in the same order. *)
Theorem Get_depends_on_own_operations
    (ops : list Op) (s : UserStore) (id : string) :
  users (run ops s) !! id
  = users (run (filter (λ o, op_key o = id) ops) s) !! id ∧
  Get (run ops s) id = Get (run (filter (λ o, op_key o = id) ops) s) id.
Proof.
  assert (users (run ops s) !! id
          = users (run (filter (λ o, op_key o = id) ops) s) !! id) as Hlook.
  { by apply run_only_own_ops. }
  split; [exact Hlook | by apply Get_ext].
Qed.
